(** * Stock-Forecast-App: the statistical core

  A shallow embedding of [Modules/stationarity.py] ([adf_test]) and of
  [Modules/forecast.py] ([get_arima_params], [forecast_stock]).

  Floating-point numbers are the kernel's binary64 floats, so [nan], the
  comparisons and the subtraction of [Series.diff] behave as in Python.
  The functions of pandas, statsmodels and matplotlib that the code calls
  are not part of the repository: they are the fields of the class
  [Libraries], each a function of its arguments that returns or raises. *)

From Stdlib Require Import ZArith List String Ascii Bool Lia.
From Stdlib Require Import Floats DecimalString DecimalZ.
Import ListNotations.

Set Warnings "-inexact-float,-register-all".
Local Open Scope string_scope.
Local Open Scope Z_scope.

(* ===================================================================== *)
(** ** Python runtime: objects, exceptions, logging *)
(* ===================================================================== *)

Module Py.

(** An exception object: its class and its message; [str(e)] is the
    message.  Every class here derives from [Exception] (the libraries
    raise [ValueError], [LinAlgError], ...), so [except Exception]
    catches all of them. *)
Inductive exn : Type :=
| Exc (cls : string) (msg : string).

Definition str_exn (e : exn) : string :=
  match e with Exc _ msg => msg end.

(** The Python values the three functions build and return. *)
Inductive pyobj : Type :=
| PyNone
| PyInt (z : Z)
| PyFloat (f : float)
| PyStr (s : string)
| PyArray (xs : list float)
| PyTuple (xs : list pyobj)
| PyDict (kv : list (string * pyobj))
| PyBytesIO (data : list Byte.byte).

(** A dict with string keys, in insertion order. *)
Definition dict := list (string * pyobj).

Fixpoint dict_get (d : dict) (k : string) : option pyobj :=
  match d with
  | [] => None
  | (k', v) :: rest => if String.eqb k k' then Some v else dict_get rest k
  end.

(** What a call into a library does: it returns a value or raises. *)
Inductive result (A : Type) : Type :=
| Ok (a : A)
| Err (e : exn).
Arguments Ok {A} a.
Arguments Err {A} e.

(** The [logging] module: [basicConfig(level=INFO)] lets INFO, WARNING
    and ERROR records through; the log is the list of emitted records. *)
Inductive level : Type := INFO | WARNING | ERROR.

Record LogRecord : Type := mkLog {
  lr_name : string;
  lr_level : level;
  lr_msg : string
}.

Definition Log := list LogRecord.

(** How a call of one of the three functions ends.  [OutOfFuel] is the
    model's own: the [while] loop ran longer than the fuel given. *)
Inductive outcome (A : Type) : Type :=
| Returns (a : A)
| Raises (e : exn)
| OutOfFuel.
Arguments Returns {A} a.
Arguments Raises {A} e.
Arguments OutOfFuel {A}.

(** Computations that log and may raise.  The log written before a raise
    stays written. *)
Definition M (A : Type) : Type := Log -> outcome A * Log.

Definition ret {A} (a : A) : M A := fun log => (Returns a, log).

Definition bind {A B} (c : M A) (k : A -> M B) : M B :=
  fun log =>
    match c log with
    | (Returns a, log') => k a log'
    | (Raises e, log') => (Raises e, log')
    | (OutOfFuel, log') => (OutOfFuel, log')
    end.

Definition raise {A} (e : exn) : M A := fun log => (Raises e, log).

Definition out_of_fuel {A} : M A := fun log => (OutOfFuel, log).

(** [try: body except Exception as e: handler] *)
Definition try_except {A} (body : M A) (handler : exn -> M A) : M A :=
  fun log =>
    match body log with
    | (Raises e, log') => handler e log'
    | other => other
    end.

Definition call {A} (r : result A) : M A :=
  match r with
  | Ok a => ret a
  | Err e => raise e
  end.

Definition emit (name : string) (lvl : level) (msg : string) : M unit :=
  fun log => (Returns tt, (log ++ [mkLog name lvl msg])%list).

(** [str(n)] of a Python int. *)
Definition str_int (n : Z) : string := NilZero.string_of_int (Z.to_int n).

(** [range(n)] *)
Definition range (n : Z) : list Z := map Z.of_nat (seq 0 (Z.to_nat n)).

(** [next(gen, default)] on a generator whose elements are [gen]. *)
Definition next {A} (gen : list A) (default : A) : A := hd default gen.

End Py.

Export Py.

Declare Scope py_scope.
Delimit Scope py_scope with py.
Notation "x <- c1 ;; c2" := (bind c1 (fun x => c2))
(at level 61, c1 at next level, right associativity) : py_scope.
Notation "c1 ;; c2" := (bind c1 (fun _ => c2))
(at level 61, right associativity) : py_scope.
Notation "' pat <- c1 ;; c2" := (bind c1 (fun x => match x with pat => c2 end))
(at level 61, pat pattern, c1 at next level, right associativity) : py_scope.
Local Open Scope py_scope.

(* ===================================================================== *)
(** ** pandas Series *)
(* ===================================================================== *)

Module Pandas.

(** Index labels: the app's data has string labels ("Day -100", ...);
    a forecast over such an index comes back with integer positions. *)
Inductive label : Type :=
| LStr (s : string)
| LInt (z : Z).

(** A float64 Series: labelled observations in order; a missing value is
    [nan]. *)
Definition Series := list (label * float).

Definition values (s : Series) : list float := map snd s.
Definition index (s : Series) : list label := map fst s.

Definition len {A} (s : list A) : Z := Z.of_nat (List.length s).

(** [s.dropna()] *)
Definition dropna (s : Series) : Series :=
  filter (fun lx => negb (is_nan (snd lx))) s.

(** [s.copy()] *)
Definition copy (s : Series) : Series := s.

(** [s.diff()]: the first entry is missing, entry i is x[i] - x[i-1];
    labels are kept. *)
Fixpoint diff_from (prev : float) (s : Series) : Series :=
  match s with
  | [] => []
  | (l, x) :: rest => (l, (x - prev)%float) :: diff_from x rest
  end.

Definition diff (s : Series) : Series :=
  match s with
  | [] => []
  | (l, x) :: rest => (l, nan) :: diff_from x rest
  end.

(** [v[i]] for an index in range. *)
Definition getitem (v : list float) (i : Z) : float :=
  nth (Z.to_nat i) v nan.

End Pandas.

Export Pandas.

(* ===================================================================== *)
(** ** The libraries the code calls *)
(* ===================================================================== *)

(** The tuple [adfuller] returns:
  (adfstat, pvalue, usedlag, nobs, critical values, icbest). *)
Record ADFResult : Type := mkADF {
adfstat : float;
pvalue : float;
usedlag : Z;
nobs : Z;
critvalues : list (string * float);
icbest : float
}.

(** What has been drawn on a matplotlib axes, and a figure of axes. *)
Inductive Artist : Type :=
| AcfPlot (s : Series) (lags : Z)
| PacfPlot (s : Series) (lags : Z).

Record Axes : Type := mkAxes {
ax_artists : list Artist;
ax_title : string
}.

Record Figure : Type := mkFigure {
fig_size : Z * Z;
fig_axes : list Axes;
fig_tight : bool
}.

Class Libraries : Type := {
(** pandas: [Series.std()], the sample standard deviation *)
std : Series -> float;
(** [str] of a float inside an f-string *)
str_float : float -> string;
(** statsmodels.tsa.stattools *)
adfuller : Series -> result ADFResult;
acf : Series -> Z -> result (list float);
pacf : Series -> Z -> result (list float);
(** statsmodels.graphics.tsaplots: the validation the plot calls do
    before drawing *)
plot_acf : Series -> Z -> result unit;
plot_pacf : Series -> Z -> result unit;
(** matplotlib: [fig.savefig(buf, format=...)], the bytes written *)
savefig : Figure -> string -> result (list Byte.byte);
(** statsmodels.tsa.arima.model *)
Model : Type;
ARIMAResults : Type;
ARIMA : Series -> Z * Z * Z -> result Model;
fit : Model -> result ARIMAResults;
forecast : ARIMAResults -> Z -> result Series
}.

(* ===================================================================== *)
(** ** Modules/stationarity.py *)
(* ===================================================================== *)

Module Stationarity.
Section Code.
Context {L : Libraries}.

Definition logger : string := "Modules.stationarity".

Definition critvalues_obj (cv : list (string * float)) : pyobj :=
  PyDict (map (fun kv => (fst kv, PyFloat (snd kv))) cv).

(** [adf_test(series, stock_name)], returning the result dict. *)
Definition adf_test (series : Series) (stock_name : string) : M dict :=
  let series_clean := dropna series in
  if (len series_clean <? 2) || (std series_clean =? 0)%float then
    emit logger WARNING
      ("Cannot perform ADF test on " ++ stock_name
         ++ ": Constant or insufficient data") ;;
    ret [ ("Stock", PyStr stock_name);
          ("ADF Statistic", PyStr "N/A");
          ("p-value", PyStr "N/A");
          ("Critical Values", PyStr "N/A");
          ("Stationary", PyStr "Cannot Test (Constant or Insufficient Data)") ]
  else
    try_except
      (result <- call (adfuller series_clean) ;;
       emit logger INFO
         ("ADF test completed for " ++ stock_name ++ " with p-value "
            ++ str_float (pvalue result)) ;;
       ret [ ("Stock", PyStr stock_name);
             ("ADF Statistic", PyFloat (adfstat result));
             ("p-value", PyFloat (pvalue result));
             ("Critical Values", critvalues_obj (critvalues result));
             ("Stationary",
               PyStr (if (pvalue result <? 0.05)%float
                      then "Stationary" else "Non-Stationary")) ])
      (fun e =>
         emit logger ERROR
           ("ADF test failed for " ++ stock_name ++ ": " ++ str_exn e) ;;
         ret [ ("Stock", PyStr stock_name);
               ("ADF Statistic", PyStr "N/A");
               ("p-value", PyStr "N/A");
               ("Critical Values", PyStr "N/A");
               ("Stationary", PyStr ("Error: " ++ str_exn e)) ]).

End Code.
End Stationarity.

(* ===================================================================== *)
(** ** Modules/forecast.py *)
(* ===================================================================== *)

Module Forecast.
Section Code.
Context {L : Libraries}.

Definition logger : string := "Modules.forecast".

(** The loop of [get_arima_params]:
    [while adfuller(temp_series)[1] > 0.05 and diff_count < 2: ...].
    The unit-root test runs first at every evaluation of the condition. *)
Fixpoint differencing_loop (fuel : nat) (temp_series : Series)
    (diff_count : Z) : M (Series * Z) :=
  match fuel with
  | O => out_of_fuel
  | S fuel' =>
      result <- call (adfuller temp_series) ;;
      if (0.05 <? pvalue result)%float && (diff_count <? 2) then
        differencing_loop fuel' (dropna (diff temp_series)) (diff_count + 1)
      else
        ret (temp_series, diff_count)
  end.

(** [abs(v[i]) > 0.2] *)
Definition exceeds (v : list float) (i : Z) : bool :=
  (0.2 <? abs (getitem v i))%float.

(** [next((i for i in range(len(v)) if abs(v[i]) > 0.2), 1)] *)
Definition first_lag (v : list float) : Z :=
  next (filter (exceeds v) (range (len v))) 1.

(** The figure of the two correlograms, as it is when it is saved. *)
Definition correlogram (temp_series : Series) : Figure :=
  mkFigure (10, 8)
    [ mkAxes [AcfPlot temp_series 20] "ACF";
      mkAxes [PacfPlot temp_series 20] "PACF" ]
    true.

(** [get_arima_params(series)], returning the tuple (p, d, q, buf).
    [fuel] is the model's bound on the evaluations of the loop condition;
    the source has no such argument. *)
Definition get_arima_params (fuel : nat) (series : Series)
    : M (Z * Z * Z * pyobj) :=
  let series_clean := dropna series in
  if (len series_clean <? 2) || (std series_clean =? 0)%float then
    emit logger WARNING
      "Cannot determine ARIMA parameters: Constant or insufficient data" ;;
    ret (1, 0, 1, PyNone)
  else
    '(temp_series, diff_count) <-
       differencing_loop fuel (copy series_clean) 0 ;;
    call (plot_acf temp_series 20) ;;
    call (plot_pacf temp_series 20) ;;
    png <- call (savefig (correlogram temp_series) "png") ;;
    let buf := PyBytesIO png in
    pacf_all <- call (pacf temp_series 20) ;;
    let pacf_values := skipn 1 pacf_all in
    acf_all <- call (acf temp_series 20) ;;
    let acf_values := skipn 1 acf_all in
    let p := first_lag pacf_values in
    let q := first_lag acf_values in
    let p := Z.min p 10 in
    let q := Z.min q 10 in
    emit logger INFO
      ("ARIMA parameters determined: p=" ++ str_int p ++ ", d="
         ++ str_int diff_count ++ ", q=" ++ str_int q) ;;
    ret (p, diff_count, q, buf).

(** [forecast_stock(series, p, d, q)] *)
Definition forecast_stock (series : Series) (p d q : Z) : M Series :=
  let series_clean := dropna series in
  if (len series_clean <? 2) || (std series_clean =? 0)%float then
    raise (Exc "Exception" "Cannot forecast: Constant or insufficient data")
  else
    try_except
      (model0 <- call (ARIMA series_clean (p, d, q)) ;;
       model <- call (fit model0) ;;
       fc <- call (forecast model 7) ;;
       emit logger INFO
         ("Forecast generated for " ++ str_int (len fc) ++ " days") ;;
       ret fc)
      (fun e =>
         emit logger ERROR ("ARIMA forecast failed: " ++ str_exn e) ;;
         raise e).

End Code.
End Forecast.

Export Stationarity.
Export Forecast.

(* ===================================================================== *)
(** ** Test doubles for the libraries *)
(* ===================================================================== *)

(** A small stand-in for pandas, statsmodels and matplotlib, precise enough
    to run the three functions on concrete series.  Nothing is proved about
    the real libraries through it. *)
Module Double.

Definition float_of_Z (z : Z) : float := of_uint63 (Uint63.of_Z z).

Definition fsum (xs : list float) : float :=
  fold_left (fun acc x => (acc + x)%float) xs 0%float.

(** Two-pass sample standard deviation (ddof = 1). *)
Definition std (s : Series) : float :=
  let xs := values s in
  let n := float_of_Z (len xs) in
  let mean := (fsum xs / n)%float in
  let sq := map (fun x => ((x - mean) * (x - mean))%float) xs in
  sqrt (fsum sq / (n - 1))%float.

Fixpoint nondecreasing (xs : list float) : bool :=
  match xs with
  | x :: (y :: _) as rest => (x <=? y)%float && nondecreasing rest
  | _ => true
  end.

Definition critical_values : list (string * float) :=
  [ ("1%", (-3.5)%float); ("5%", (-2.9)%float); ("10%", (-2.6)%float) ].

(** Values so large that their squares are infinite. *)
Definition overflowing (xs : list float) : bool :=
  existsb (fun x => is_infinity (x * x)%float) xs.

(** The unit-root test: too short a sample raises; on values whose squares
    overflow, the residual variance is infinite and the covariance of the
    estimates underflows to zero, so that the statistic and the p-value
    come out as [nan]; a series that never falls is given a unit root
    (p-value 0.9), any other is not (0.01). *)
Definition adfuller (s : Series) : result ADFResult :=
  if len s <? 4 then
    Err (Exc "ValueError"
           "sample size is too short to use selected regression component")
  else if overflowing (values s) then
    Ok (mkADF nan nan 0 (len s - 1) critical_values 0%float)
  else if nondecreasing (values s) then
    Ok (mkADF (-0.5)%float 0.9%float 0 (len s - 1) critical_values 0%float)
  else
    Ok (mkADF (-4.2)%float 0.01%float 0 (len s - 1) critical_values 0%float).

(** Correlograms: lag 0 is 1, then a fixed profile padded with zeros. *)
Definition profile (head : list float) (nlags : Z) : list float :=
  (1%float :: firstn (Z.to_nat nlags)
                (head ++ repeat 0%float (Z.to_nat nlags)))%list.

Definition acf (s : Series) (nlags : Z) : result (list float) :=
  Ok (firstn (Z.to_nat (len s))
        (profile [(-0.6)%float; 0.3%float; 0.1%float] nlags)).

(** Partial autocorrelations need more than twice as many observations
    as lags. *)
Definition pacf (s : Series) (nlags : Z) : result (list float) :=
  if len s / 2 <=? nlags then
    Err (Exc "ValueError"
           "Can only compute partial correlations for lags up to 50% of the sample size.")
  else
    Ok (profile [0.1%float; 0.15%float; (-0.3)%float; 0.05%float] nlags).

(** The plot of the autocorrelations needs one observation per lag drawn,
    lag 0 included; the plot of the partial ones needs what [pacf] needs. *)
Definition plot_acf (s : Series) (lags : Z) : result unit :=
  if len s <=? lags then
    Err (Exc "ValueError" "x and y must have the same size")
  else Ok tt.

Definition plot_pacf (s : Series) (lags : Z) : result unit :=
  if len s / 2 <=? lags then
    Err (Exc "ValueError"
           "Can only compute partial correlations for lags up to 50% of the sample size.")
  else Ok tt.

(** The renderer writes the PNG signature and one byte per axes. *)
Definition savefig (fig : Figure) (format : string)
    : result (list Byte.byte) :=
  if String.eqb format "png" then
    Ok ([Byte.x89; Byte.x50; Byte.x4e; Byte.x47]
          ++ map (fun _ => Byte.x00) (fig_axes fig))%list
  else
    Err (Exc "ValueError" "Format is not supported").

Definition Model : Type := Series * (Z * Z * Z).
Definition ARIMAResults : Type := Series.

Definition ARIMA (s : Series) (order : Z * Z * Z) : result Model :=
  let '(p, d, q) := order in
  if (p <? 0) || (d <? 0) || (q <? 0) then
    Err (Exc "ValueError" "Cannot fit a model with negative orders")
  else Ok (s, order).

(** Fitting fails when the orders ask for more parameters than there
    are observations. *)
Definition fit (m : Model) : result ARIMAResults :=
  let '(s, (p, d, q)) := m in
  if len s <=? p + d + q then
    Err (Exc "LinAlgError" "Singular matrix")
  else Ok s.

(** A naive forecast: the last observation, repeated; positions continue
    after the last observed one. *)
Definition forecast (r : ARIMAResults) (steps : Z) : result Series :=
  Ok (map (fun i => (LInt (len r + i), snd (last r (LInt 0, nan))))
        (range steps)).

Definition lab : Libraries :=
  Build_Libraries std (fun _ => "?") adfuller acf pacf plot_acf plot_pacf
    savefig Model ARIMAResults ARIMA fit forecast.

(** Labels as [data_loader.load_data] writes them: "Day -100", "Day -99", ... *)
Definition labelled (xs : list float) : Series :=
  combine (map (fun i => LStr ("Day -" ++ str_int (100 - i))) (range (len xs)))
          xs.

Definition constant_prices : Series :=
  labelled [50; 50; 50; 50; 50]%float.

Definition alternating_prices : Series :=
  labelled [100; 101; 99; 102; 98; 103; 97; 104; 96; 105]%float.

Definition rising_prices : Series :=
  labelled [100; 101; 103; 106; 110; 115; 121; 128; 136; 145]%float.

Definition short_prices : Series :=
  labelled [100; 101; 99]%float.

Definition gappy_prices : Series :=
  labelled [nan; 7; nan]%float.

(** 44 observations that wander around 100. *)
Definition steady_prices : Series :=
  labelled [
    100; 103; 98; 101; 97; 104; 99; 102; 96; 105; 100; 98; 103; 101;
    97; 99; 104; 100; 102; 96; 101; 105; 98; 100; 103; 97; 102; 99;
    104; 96; 100; 101; 98; 105; 99; 103; 97; 102; 100; 96; 104; 101;
    99; 98 ]%float.

(** 45 observations that rise by uneven steps. *)
Definition trending_prices : Series :=
  labelled [
    100; 103; 104; 108; 109; 114; 123; 125; 131; 136; 139; 144; 152;
    161; 168; 177; 180; 182; 185; 193; 197; 203; 205; 211; 215; 218;
    221; 229; 232; 234; 241; 250; 255; 256; 258; 266; 274; 278; 279;
    288; 295; 296; 302; 311; 314 ]%float.

(** The steady prices in a unit so small that they are of the order of
    1e200: still numbers, but their squares are not. *)
Definition huge_prices : Series :=
  labelled (map (fun x => (x * 1e198)%float) (values steady_prices)).

(** The first 30 of the steady prices. *)
Definition thirty_prices : Series :=
  labelled [
    100; 103; 98; 101; 97; 104; 99; 102; 96; 105; 100; 98; 103; 101;
    97; 99; 104; 100; 102; 96; 101; 105; 98; 100; 103; 97; 102; 99;
    104; 96 ]%float.

End Double.


(* ===================================================================== *)
(** ** Vocabulary of the properties *)
(* ===================================================================== *)

(** The guard the three functions open with: after [dropna], fewer than two
    observations, or a standard deviation equal to zero. *)
Definition degenerate {L : Libraries} (series : Series) : bool :=
  (len (dropna series) <? 2) || (std (dropna series) =? 0)%float.

(** One pass of the loop body: [temp_series.diff().dropna()]. *)
Definition difference (s : Series) : Series := dropna (diff s).

Definition differenced (d : Z) (s : Series) : Series :=
  Nat.iter (Z.to_nat d) difference s.

(** [i] is the first position of [v] whose magnitude exceeds 0.2. *)
Definition smallest_exceeding (v : list float) (i : Z) : Prop :=
  0 <= i < len v /\ exceeds v i = true /\
  forall j, 0 <= j < i -> exceeds v j = false.

Definition none_exceeds (v : list float) : Prop :=
  forall j, 0 <= j < len v -> exceeds v j = false.

(** The order read off a correlogram [v] (lag 0 already removed, so that
    position 0 is lag 1): the first exceeding position, or 1 when there is
    none, capped at 10. *)
Definition order_rule (v : list float) (order : Z) : Prop :=
  (exists i, smallest_exceeding v i /\ order = Z.min i 10) \/
  (none_exceeds v /\ order = 1).

(** A Python value read as a sequence of numbers: a numpy array, or a
    tuple of floats. *)
Fixpoint floats_of (items : list pyobj) : option (list float) :=
  match items with
  | [] => Some []
  | PyFloat f :: rest => option_map (cons f) (floats_of rest)
  | _ :: _ => None
  end.

Definition as_sequence (o : pyobj) : option (list float) :=
  match o with
  | PyArray xs => Some xs
  | PyTuple items => floats_of items
  | _ => None
  end.

Definition as_pair (a b : pyobj) : option (list float * list float) :=
  match as_sequence a, as_sequence b with
  | Some x, Some y => Some (x, y)
  | _, _ => None
  end.

(** The pair of numeric sequences a Python value holds, when it holds
    one: as a tuple of two sequences, or as a dict of two entries. *)
Definition curves_of (o : pyobj) : option (list float * list float) :=
  match o with
  | PyTuple [a; b] => as_pair a b
  | PyDict [(_, a); (_, b)] => as_pair a b
  | _ => None
  end.

(** What statsmodels documents of a forecast over an index it cannot
    extend (string labels): [steps] predictions, at the integer positions
    that follow the sample the model was built on. *)
Class ForecastContract (L : Libraries) : Prop := {
  forecast_index :
    forall s order m r steps fc,
      ARIMA s order = Ok m -> fit m = Ok r -> forecast r steps = Ok fc ->
      index fc = map (fun i => LInt (len s + i)) (range steps)
}.

(** The runs of the [while] loop of [get_arima_params], from a current
    series and a current count: the unit-root test raises; or the condition
    is false and the loop is left; or the body runs once and the loop goes
    on from the differenced series. *)
Inductive loop_run {L : Libraries}
  : Series -> Z -> outcome (Series * Z) -> Prop :=
| run_raise (t : Series) (d : Z) (e : exn) :
    adfuller t = Err e ->
    loop_run t d (Raises e)
| run_leave (t : Series) (d : Z) (r : ADFResult) :
    adfuller t = Ok r ->
    (0.05 <? pvalue r)%float && (d <? 2) = false ->
    loop_run t d (Returns (t, d))
| run_body (t : Series) (d : Z) (r : ADFResult) (o : outcome (Series * Z)) :
    adfuller t = Ok r ->
    (0.05 <? pvalue r)%float = true ->
    (d <? 2) = true ->
    loop_run (difference t) (d + 1) o ->
    loop_run t d o.

(** C3 in the words of the specification: the loop has left with a final
    series and a count, and it left because that series tests stationary
    (p-value at most 0.05) or because the count has reached 2. *)
Definition leaves_as_specified {L : Libraries}
    (fuel : nat) (series : Series) (log : Log) : Prop :=
  exists temp d r,
    differencing_loop fuel (copy (dropna series)) 0 log =
      (Returns (temp, d), log) /\
    adfuller temp = Ok r /\
    ((pvalue r <=? 0.05)%float = true \/ d = 2).

(** C8 in the words of the specification: the call returns a proposal
    that carries, alongside p, d and q, the two diagnostic curves as
    numeric sequences of 20 elements each. *)
Definition returns_curves_as_data {L : Libraries}
    (fuel : nat) (series : Series) (log : Log) : Prop :=
  exists p d q buf log' a b,
    get_arima_params fuel series log = (Returns (p, d, q, buf), log') /\
    curves_of buf = Some (a, b) /\ len a = 20 /\ len b = 20.

(* ===================================================================== *)
(** ** pandas DataFrame *)
(* ===================================================================== *)

Module Frame.

Definition label_eqb (a b : label) : bool :=
  match a, b with
  | LStr s, LStr t => String.eqb s t
  | LInt m, LInt n => Z.eqb m n
  | _, _ => false
  end.

(** [repr] of a Python string.  A string here is a sequence of code
    points below 256.  Python quotes with apostrophes unless the string
    has an apostrophe and no double quote; it escapes the quote it uses
    and the backslash, writes tab, newline and carriage return as
    backslash t, n, r, and every other code point that is not printable
    as backslash x and two hexadecimal digits. *)
Definition squote : ascii := "039"%char.
Definition dquote : ascii := "034"%char.
Definition backslash : ascii := "092"%char.

Fixpoint contains (c : ascii) (s : string) : bool :=
  match s with
  | EmptyString => false
  | String a rest => Ascii.eqb a c || contains c rest
  end.

Definition hex_digit (n : nat) : ascii :=
  nth n [ "0"; "1"; "2"; "3"; "4"; "5"; "6"; "7"; "8"; "9";
          "a"; "b"; "c"; "d"; "e"; "f" ]%char "0"%char.

(** Printable code points below 256: the ASCII ones from space to tilde,
    and those from 161 on but the soft hyphen (173). *)
Definition printable (c : ascii) : bool :=
  let n := nat_of_ascii c in
  ((32 <=? n)%nat && (n <=? 126)%nat)
  || ((161 <=? n)%nat && negb (n =? 173)%nat).

Definition repr_char (quote c : ascii) : string :=
  if Ascii.eqb c quote || Ascii.eqb c backslash then
    String backslash (String c EmptyString)
  else if Ascii.eqb c "009"%char then String backslash "t"
  else if Ascii.eqb c "010"%char then String backslash "n"
  else if Ascii.eqb c "013"%char then String backslash "r"
  else if printable c then String c EmptyString
  else
    let n := nat_of_ascii c in
    String backslash
      (String "x" (String (hex_digit (n / 16))
                     (String (hex_digit (n mod 16)) EmptyString))).

Fixpoint repr_body (quote : ascii) (s : string) : string :=
  match s with
  | EmptyString => EmptyString
  | String c rest => repr_char quote c ++ repr_body quote rest
  end.

Definition repr_str (s : string) : string :=
  let quote :=
    if contains squote s && negb (contains dquote s) then dquote
    else squote in
  String quote (repr_body quote s ++ String quote EmptyString).

(** A name [repr] only wraps in apostrophes: printable, with no
    apostrophe and no backslash. *)
Fixpoint plain (s : string) : bool :=
  match s with
  | EmptyString => true
  | String c rest =>
      printable c && negb (Ascii.eqb c squote)
      && negb (Ascii.eqb c backslash) && plain rest
  end.

(** [repr] of a label, as a [KeyError] shows its key. *)
Definition repr_label (l : label) : string :=
  match l with
  | LStr s => repr_str s
  | LInt z => str_int z
  end.

(** A float64 DataFrame: the row labels, and the columns in order, each
    with its name and one value per row. *)
Record DataFrame : Type := mkFrame {
  df_index : list label;
  df_columns : list (label * list float)
}.

Definition columns (df : DataFrame) : list label := map fst (df_columns df).

(** Every column has one value per row. *)
Definition well_formed (df : DataFrame) : Prop :=
  Forall (fun c => List.length (snd c) = List.length (df_index df))
         (df_columns df).

(** [df.transpose()]: rows become columns, in order. *)
Definition transpose (df : DataFrame) : DataFrame :=
  mkFrame (columns df)
    (map (fun k => (nth k (df_index df) (LInt 0),
                    map (fun c => nth k (snd c) nan) (df_columns df)))
         (seq 0 (List.length (df_index df)))).

(** [df.index = labels]: pandas refuses a list of another length. *)
Definition set_index (df : DataFrame) (labels : list label)
    : result DataFrame :=
  if Nat.eqb (List.length labels) (List.length (df_index df)) then
    Ok (mkFrame labels (df_columns df))
  else
    Err (Exc "ValueError" "Length mismatch").

(** [df.head(n)] *)
Definition head (df : DataFrame) (n : nat) : DataFrame :=
  mkFrame (firstn n (df_index df))
    (map (fun c => (fst c, firstn n (snd c))) (df_columns df)).

(** [df[name]] on a frame whose column names are distinct: the column of
    that name as a Series, or [KeyError]. *)
Definition getitem_column (df : DataFrame) (name : label) : result Series :=
  match find (fun c => label_eqb (fst c) name) (df_columns df) with
  | Some c => Ok (combine (df_index df) (snd c))
  | None => Err (Exc "KeyError" (repr_label name))
  end.

(** [xs[-k:]] for a positive [k]: the last [k] elements, all of them when
    there are fewer. *)
Definition last_k {A} (k : Z) (xs : list A) : list A :=
  skipn (Z.to_nat (Z.max (len xs - k) 0)) xs.

End Frame.

Export Frame.

(* ===================================================================== *)
(** ** Modules/data_loader.py *)
(* ===================================================================== *)

(** pandas' CSV reader: [pd.read_csv(file_path, index_col=...)] on the
    files as they are when the app runs. *)
Class CsvReader : Type := {
  read_csv : string -> Z -> result DataFrame
}.

Module DataLoader.
Section Code.
Context {R : CsvReader}.

(** [f"Day -{100-i}"] *)
Definition day_label (i : Z) : label := LStr ("Day -" ++ str_int (100 - i)).

(** [load_data(file_path)]: the frame it returns or the exception it
    raises, and what it has printed on standard output ([df.head()], kept
    as the frame printed). *)
Definition load_data (file_path : string) (stdout : list DataFrame)
    : outcome DataFrame * list DataFrame :=
  match read_csv file_path 0 with
  | Err e => (Raises e, stdout)
  | Ok df =>
      let df := transpose df in
      match set_index df (map day_label (range (len (df_index df)))) with
      | Err e => (Raises e, stdout)
      | Ok df => (Returns df, (stdout ++ [head df 5])%list)
      end
  end.

Definition default_path : string := "Data/Historical_data.csv".

End Code.
End DataLoader.

Export DataLoader.

(* ===================================================================== *)
(** ** Modules/forecast.py: the line plots *)
(* ===================================================================== *)

(** A line drawn by [ax.plot(x, y, label=..., color=..., linestyle=...)]. *)
Record Line : Type := mkLine {
  ln_x : list label;
  ln_y : list float;
  ln_label : string;
  ln_color : option string;
  ln_style : option string
}.

(** A figure of one axes with lines, as the plot functions configure it. *)
Record LineFigure : Type := mkLineFigure {
  lf_size : Z * Z;
  lf_lines : list Line;
  lf_title : string;
  lf_xlabel : string;
  lf_ylabel : string;
  lf_legend : bool;
  lf_grid : bool;
  lf_xtick_rotation : Z;
  lf_tight : bool
}.

(** matplotlib: the check [ax.plot] makes of its data, and the bytes
    [fig.savefig] writes. *)
Class Matplotlib : Type := {
  ax_plot : list label -> list float -> result unit;
  savefig_lines : LineFigure -> string -> result (list Byte.byte)
}.

Module Plots.
Section Code.
Context {P : Matplotlib}.

(** The loop of [plot_prices]:
    [for stock in stocks: ax.plot(data.index, data[stock], label=stock)]. *)
Fixpoint plot_each (data : DataFrame) (stocks : list string)
    (drawn : list Line) : M (list Line) :=
  match stocks with
  | [] => ret drawn
  | stock :: rest =>
      column <- call (getitem_column data (LStr stock)) ;;
      call (ax_plot (df_index data) (values column)) ;;
      plot_each data rest
        (drawn ++ [mkLine (df_index data) (values column) stock None None])%list
  end.

(** [plot_prices(data, stocks, title)] *)
Definition plot_prices (data : DataFrame) (stocks : list string)
    (title : string) : M pyobj :=
  drawn <- plot_each data stocks [] ;;
  png <- call (savefig_lines
                 (mkLineFigure (10, 6) drawn title "Day" "Price (INR)"
                    true true 45 true) "png") ;;
  ret (PyBytesIO png).

(** [forecast_index = [f"Day +{i+1}" for i in range(n)]] *)
Definition forecast_labels (n : Z) : list label :=
  map (fun i => LStr ("Day +" ++ str_int (i + 1))) (range n).

(** The two lines of [plot_forecast]. *)
Definition historical_line (series : Series) : Line :=
  mkLine (last_k 30 (index series)) (last_k 30 (values series))
    "Historical" (Some "blue") None.

Definition forecast_line (fc : Series) : Line :=
  mkLine (forecast_labels (len fc)) (values fc)
    "Forecast" (Some "red") (Some "--").

(** [plot_forecast(series, forecast, stock_name)] *)
Definition plot_forecast (series : Series) (fc : Series)
    (stock_name : string) : M pyobj :=
  call (ax_plot (last_k 30 (index series)) (last_k 30 (values series))) ;;
  call (ax_plot (forecast_labels (len fc)) (values fc)) ;;
  png <- call (savefig_lines
                 (mkLineFigure (10, 6)
                    [historical_line series; forecast_line fc]
                    ("7-Day Forecast for " ++ stock_name) "Day" "Price (INR)"
                    true true 45 true) "png") ;;
  ret (PyBytesIO png).

End Code.
End Plots.

Export Plots.

(* ===================================================================== *)
(** ** app.py: the pure parts *)
(* ===================================================================== *)

Module App.

(** [color_stationary(val)], the cell style of the verdict column. *)
Definition color_stationary (val : pyobj) : string :=
  match val with
  | PyStr s =>
      if String.eqb s "Stationary" then "background-color: #e6ffe6"
      else if String.eqb s "Non-Stationary" then "background-color: #ffe6e6"
      else ""
  | _ => ""
  end.

(** The ranges of the three [st.number_input] widgets that take the
    proposal as their default values. *)
Definition within_widget_ranges (p d q : Z) : Prop :=
  0 <= p <= 10 /\ 0 <= d <= 2 /\ 0 <= q <= 10.

End App.

Export App.

(* ===================================================================== *)
(** ** Test doubles for the reader and for matplotlib *)
(* ===================================================================== *)

Module DoubleIO.

(** A file of two stocks over three days, and no other file. *)
Definition two_stocks : DataFrame :=
  mkFrame [LStr "TCS"; LStr "INFY"]
    [ (LStr "2024-01-01", [100; 50]%float);
      (LStr "2024-01-02", [101; nan]%float);
      (LStr "2024-01-03", [99; 52]%float) ].

Definition read_csv (file_path : string) (index_col : Z)
    : result DataFrame :=
  if String.eqb file_path "Data/Historical_data.csv" then Ok two_stocks
  else Err (Exc "FileNotFoundError" "No such file or directory").

Definition reader : CsvReader := Build_CsvReader read_csv.

(** [ax.plot] refuses data of different lengths. *)
Definition ax_plot (x : list label) (y : list float) : result unit :=
  if Nat.eqb (List.length x) (List.length y) then Ok tt
  else Err (Exc "ValueError" "x and y must have same first dimension").

(** The renderer writes the PNG signature and one byte per line. *)
Definition savefig_lines (fig : LineFigure) (format : string)
    : result (list Byte.byte) :=
  if String.eqb format "png" then
    Ok ([Byte.x89; Byte.x50; Byte.x4e; Byte.x47]
          ++ map (fun _ => Byte.x01) (lf_lines fig))%list
  else
    Err (Exc "ValueError" "Format is not supported").

Definition canvas : Matplotlib := Build_Matplotlib ax_plot savefig_lines.

(** The frame [load_data] makes of the file above. *)
Definition loaded : DataFrame :=
  mkFrame [LStr "Day -100"; LStr "Day -99"; LStr "Day -98"]
    [ (LStr "TCS", [100; 101; 99]%float);
      (LStr "INFY", [50; nan; 52]%float) ].

End DoubleIO.

(* ===================================================================== *)
(** ** Vocabulary of the further properties *)
(* ===================================================================== *)

(** [xs] is [ys] with some elements left out, the order kept. *)
Inductive subsequence {A : Type} : list A -> list A -> Prop :=
| sub_nil : subsequence [] []
| sub_skip (y : A) (xs ys : list A) :
    subsequence xs ys -> subsequence xs (y :: ys)
| sub_keep (x : A) (xs ys : list A) :
    subsequence xs ys -> subsequence (x :: xs) (x :: ys).

(** No observation of the series is missing. *)
Definition no_missing (s : Series) : Prop :=
  Forall (fun x => is_nan x = false) (values s).

(** The keys of a dict, in order. *)
Definition keys (d : dict) : list string := map fst d.

(** A dict value that is a number. *)
Definition is_number (o : option pyobj) : bool :=
  match o with
  | Some (PyFloat _) => true
  | _ => false
  end.

(** Row [k] of a frame, read across its columns. *)
Definition row (df : DataFrame) (k : nat) : list float :=
  map (fun c => nth k (snd c) nan) (df_columns df).

(** matplotlib draws any two sequences of the same length. *)
Definition accepts_equal_lengths {P : Matplotlib} : Prop :=
  forall (x : list label) (y : list float),
    List.length x = List.length y -> ax_plot x y = Ok tt.

(** The line [plot_prices] draws for a stock: the column of that name
    against the row labels. *)
Definition price_line (data : DataFrame) (l : Line) : Prop :=
  ln_x l = df_index data /\
  In (LStr (ln_label l), ln_y l) (df_columns data) /\
  List.length (ln_y l) = List.length (df_index data) /\
  ln_color l = None /\ ln_style l = None.

(* ===================================================================== *)
(** ** Floating-point comparisons *)
(* ===================================================================== *)

Section FloatOrder.

Lemma SFcompare_antisym (a b : spec_float) (c : comparison) :
  SFcompare a b = Some c -> SFcompare b a = Some (CompOpp c).
Proof.
  destruct a as [sa | sa | | sa ma ea], b as [sb | sb | | sb mb eb];
    simpl; intros H; inversion H; subst; clear H;
    try (destruct sa; reflexivity);
    try (destruct sb; reflexivity);
    try (destruct sa, sb; reflexivity).
  destruct sa, sb; try reflexivity.
  - rewrite (Z.compare_antisym ea eb).
    destruct (ea ?= eb)%Z; simpl; try reflexivity.
    f_equal. f_equal.
    change (PosDef.Pos.compare_cont Eq mb ma)
      with (Pos.compare_cont (CompOpp Eq) mb ma).
    now rewrite <- Pos.compare_cont_antisym.
  - rewrite (Z.compare_antisym ea eb).
    destruct (ea ?= eb)%Z; simpl; try reflexivity.
    f_equal.
    change (PosDef.Pos.compare_cont Eq mb ma)
      with (Pos.compare_cont (CompOpp Eq) mb ma).
    now rewrite <- Pos.compare_cont_antisym.
Qed.

Lemma SFcompare_none (a b : spec_float) :
  SFcompare a b = None -> a = S754_nan \/ b = S754_nan.
Proof.
  destruct a, b; simpl; intros H; try discriminate; auto.
Qed.

Lemma not_nan_spec (x : float) :
  is_nan x = false -> Prim2SF x <> S754_nan.
Proof.
  unfold is_nan. rewrite eqb_spec. unfold SFeqb. intros H E.
  rewrite E in H. simpl in H. discriminate.
Qed.

(** For numbers (not [nan]), "not greater" is "at most". *)
Lemma not_gt_le (x c : float) :
  is_nan x = false -> is_nan c = false ->
  (c <? x)%float = false -> (x <=? c)%float = true.
Proof.
  intros Hx Hc. apply not_nan_spec in Hx. apply not_nan_spec in Hc.
  rewrite ltb_spec, leb_spec. unfold SFltb, SFleb.
  destruct (SFcompare (Prim2SF c) (Prim2SF x)) as [r |] eqn:E.
  - apply SFcompare_antisym in E. rewrite E.
    destruct r; simpl; congruence.
  - apply SFcompare_none in E. tauto.
Qed.

End FloatOrder.

(* ===================================================================== *)
(** ** Running the monad *)
(* ===================================================================== *)

Ltac run := unfold bind, call, ret, raise, emit, try_except, copy; simpl.

Ltac take_guard H :=
  cbv zeta; unfold degenerate in H; rewrite H.

(* ===================================================================== *)
(** ** Degenerate input *)
(* ===================================================================== *)

Section Guards.
Context {L : Libraries}.

(** C1.  On a series whose cleaned version has fewer than two observations
    or a standard deviation of exactly zero: [adf_test] returns the
    Cannot-Test record with "N/A" in every numeric field,
    [get_arima_params] returns (1, 0, 1, None), and [forecast_stock] raises
    "Cannot forecast: Constant or insufficient data" and returns no
    forecast.  The first two only log a warning; none of them calls a
    statistical routine. *)
Theorem degenerate_input_handling
    (series : Series) (stock_name : string) (fuel : nat) (p d q : Z)
    (log : Log) :
  degenerate series = true ->
  adf_test series stock_name log =
    (Returns [ ("Stock", PyStr stock_name);
               ("ADF Statistic", PyStr "N/A");
               ("p-value", PyStr "N/A");
               ("Critical Values", PyStr "N/A");
               ("Stationary",
                 PyStr "Cannot Test (Constant or Insufficient Data)") ],
     (log ++ [mkLog Stationarity.logger WARNING
               ("Cannot perform ADF test on " ++ stock_name
                  ++ ": Constant or insufficient data")])%list)
  /\ get_arima_params fuel series log =
       (Returns (1, 0, 1, PyNone),
        (log ++ [mkLog Forecast.logger WARNING
                  "Cannot determine ARIMA parameters: Constant or insufficient data"])%list)
  /\ forecast_stock series p d q log =
       (Raises (Exc "Exception"
                  "Cannot forecast: Constant or insufficient data"),
        log).
Proof.
  intros H. repeat split.
  - unfold adf_test. take_guard H. reflexivity.
  - unfold get_arima_params. take_guard H. reflexivity.
  - unfold forecast_stock. take_guard H. reflexivity.
Qed.

End Guards.

Lemma degenerate_input_handling_constant :
  degenerate (L := Double.lab) Double.constant_prices = true /\
  fst (adf_test (L := Double.lab) Double.constant_prices "TCS" []) =
    Returns [ ("Stock", PyStr "TCS");
              ("ADF Statistic", PyStr "N/A");
              ("p-value", PyStr "N/A");
              ("Critical Values", PyStr "N/A");
              ("Stationary",
                PyStr "Cannot Test (Constant or Insufficient Data)") ]
  /\ fst (get_arima_params (L := Double.lab) 3 Double.constant_prices []) =
       Returns (1, 0, 1, PyNone)
  /\ fst (forecast_stock (L := Double.lab) Double.constant_prices 1 0 1 []) =
       Raises (Exc "Exception"
                 "Cannot forecast: Constant or insufficient data").
Proof.
  assert (H : degenerate (L := Double.lab) Double.constant_prices = true)
    by (vm_compute; reflexivity).
  split; [exact H |].
  destruct (degenerate_input_handling (L := Double.lab)
              Double.constant_prices "TCS" 3 1 0 1 [] H)
    as (Ha & Hg & Hf).
  rewrite Ha, Hg, Hf. repeat split.
Defined.

(* ===================================================================== *)
(** ** [adf_test] *)
(* ===================================================================== *)

Section AdfTest.
Context {L : Libraries}.

(** Whatever the series, [adf_test] returns a record: which one, and what
    it logs, is decided by the series and the name alone. *)
Lemma adf_test_returns (series : Series) (stock_name : string) :
  exists (d : dict) (records : Log),
    forall log,
      adf_test series stock_name log = (Returns d, (log ++ records)%list).
Proof.
  unfold adf_test. cbv zeta.
  destruct ((len (dropna series) <? 2) || (std (dropna series) =? 0)%float).
  - eexists; eexists; intros log; run; reflexivity.
  - destruct (adfuller (dropna series)) as [r | e];
      eexists; eexists; intros log; run; reflexivity.
Qed.

(** C4.  On a non-degenerate series on which the unit-root test succeeds,
    [adf_test] returns the test statistic and the p-value of the test,
    its critical values (a dict with the levels of the test in their
    order, each with the test's value for it), and the verdict
    "Stationary" exactly when the p-value is strictly below 0.05,
    "Non-Stationary" otherwise. *)
Theorem adf_verdict
    (series : Series) (stock_name : string) (r : ADFResult) (log : Log) :
  degenerate series = false ->
  adfuller (dropna series) = Ok r ->
  exists (verdict : string) (cv : dict),
    adf_test series stock_name log =
      (Returns [ ("Stock", PyStr stock_name);
                 ("ADF Statistic", PyFloat (adfstat r));
                 ("p-value", PyFloat (pvalue r));
                 ("Critical Values", PyDict cv);
                 ("Stationary", PyStr verdict) ],
       (log ++ [mkLog Stationarity.logger INFO
                 ("ADF test completed for " ++ stock_name
                    ++ " with p-value " ++ str_float (pvalue r))])%list)
    /\ cv = map (fun kv => (fst kv, PyFloat (snd kv))) (critvalues r)
    /\ map fst cv = map fst (critvalues r)
    /\ (forall level value,
          In (level, value) (critvalues r) -> In (level, PyFloat value) cv)
    /\ (forall level o,
          In (level, o) cv ->
          exists value, o = PyFloat value /\ In (level, value) (critvalues r))
    /\ (verdict = "Stationary" <-> (pvalue r <? 0.05)%float = true)
    /\ (verdict = "Non-Stationary" <-> (pvalue r <? 0.05)%float = false).
Proof.
  intros H E.
  exists (if (pvalue r <? 0.05)%float then "Stationary" else "Non-Stationary").
  exists (map (fun kv => (fst kv, PyFloat (snd kv))) (critvalues r)).
  split; [| split; [| split; [| split; [| split]]]].
  - unfold adf_test. take_guard H. run. rewrite E. reflexivity.
  - reflexivity.
  - rewrite map_map. reflexivity.
  - intros level value Hin.
    apply in_map_iff. exists (level, value). now split.
  - intros level o Hin. apply in_map_iff in Hin.
    destruct Hin as ([l v] & Heq & Hin). simpl in Heq.
    injection Heq as <- <-. exists v. now split.
  - destruct (pvalue r <? 0.05)%float; split; split; intros; congruence.
Qed.

(** C6.  On a series on which the unit-root test raises, [adf_test]
    returns (it does not raise) the record whose verdict is "Error: "
    followed by the failure's message, with "N/A" in every numeric field,
    after logging the failure. *)
Theorem adf_failure_is_caught
    (series : Series) (stock_name : string) (e : exn) (log : Log) :
  degenerate series = false ->
  adfuller (dropna series) = Err e ->
  adf_test series stock_name log =
    (Returns [ ("Stock", PyStr stock_name);
               ("ADF Statistic", PyStr "N/A");
               ("p-value", PyStr "N/A");
               ("Critical Values", PyStr "N/A");
               ("Stationary", PyStr ("Error: " ++ str_exn e)) ],
     (log ++ [mkLog Stationarity.logger ERROR
               ("ADF test failed for " ++ stock_name ++ ": "
                  ++ str_exn e)])%list).
Proof.
  intros H E. unfold adf_test. take_guard H. run. rewrite E. reflexivity.
Qed.

(** C9.  [adf_test] is deterministic: two calls on the same series and
    name return the same record, whatever has been logged before each
    call; the only trace a call leaves is what it appends to the log, and
    that too is the same. *)
Theorem adf_test_deterministic
    (series : Series) (stock_name : string) (log1 log2 : Log) :
  fst (adf_test series stock_name log1) = fst (adf_test series stock_name log2)
  /\ exists records : Log,
       snd (adf_test series stock_name log1) = (log1 ++ records)%list /\
       snd (adf_test series stock_name log2) = (log2 ++ records)%list.
Proof.
  destruct (adf_test_returns series stock_name) as (d & records & H).
  rewrite (H log1), (H log2). simpl. split; [reflexivity |].
  exists records. split; reflexivity.
Qed.

End AdfTest.

Lemma adf_verdict_alternating :
  degenerate (L := Double.lab) Double.alternating_prices = false /\
  fst (adf_test (L := Double.lab) Double.alternating_prices "INFY" []) =
    Returns [ ("Stock", PyStr "INFY");
              ("ADF Statistic", PyFloat (-4.2)%float);
              ("p-value", PyFloat 0.01%float);
              ("Critical Values",
                PyDict [ ("1%", PyFloat (-3.5)%float);
                         ("5%", PyFloat (-2.9)%float);
                         ("10%", PyFloat (-2.6)%float) ]);
              ("Stationary", PyStr "Stationary") ].
Proof.
  assert (H : degenerate (L := Double.lab) Double.alternating_prices = false)
    by (vm_compute; reflexivity).
  split; [exact H |].
  destruct (adf_verdict (L := Double.lab) Double.alternating_prices "INFY"
              (mkADF (-4.2)%float 0.01%float 0 9 Double.critical_values 0%float)
              [] H)
    as (verdict & cv & Hrun & Hcv & _ & _ & _ & Hs & _).
  - vm_compute. reflexivity.
  - rewrite Hrun, Hcv. simpl fst.
    rewrite (proj2 Hs) by (vm_compute; reflexivity). reflexivity.
Defined.

Lemma adf_failure_is_caught_short :
  degenerate (L := Double.lab) Double.short_prices = false /\
  fst (adf_test (L := Double.lab) Double.short_prices "SBIN" []) =
    Returns [ ("Stock", PyStr "SBIN");
              ("ADF Statistic", PyStr "N/A");
              ("p-value", PyStr "N/A");
              ("Critical Values", PyStr "N/A");
              ("Stationary",
                PyStr "Error: sample size is too short to use selected regression component") ].
Proof.
  assert (H : degenerate (L := Double.lab) Double.short_prices = false)
    by (vm_compute; reflexivity).
  split; [exact H |].
  rewrite (adf_failure_is_caught (L := Double.lab) Double.short_prices "SBIN"
             (Exc "ValueError"
                "sample size is too short to use selected regression component")
             [] H).
  - reflexivity.
  - vm_compute. reflexivity.
Defined.

(* ===================================================================== *)
(** ** [forecast_stock] *)
(* ===================================================================== *)

Section ForecastStock.
Context {L : Libraries}.

(** C7.  On a non-degenerate series, when building the model, fitting it
    or forecasting from it raises, [forecast_stock] logs
    "ARIMA forecast failed: ..." with the failure's message and raises the
    very same exception: no forecast is returned. *)
Theorem forecast_failure_is_reraised
    (series : Series) (p d q : Z) (e : exn) (log : Log) :
  degenerate series = false ->
  ARIMA (dropna series) (p, d, q) = Err e
  \/ (exists m, ARIMA (dropna series) (p, d, q) = Ok m /\ fit m = Err e)
  \/ (exists m r, ARIMA (dropna series) (p, d, q) = Ok m /\ fit m = Ok r
                  /\ forecast r 7 = Err e) ->
  forecast_stock series p d q log =
    (Raises e,
     (log ++ [mkLog Forecast.logger ERROR
               ("ARIMA forecast failed: " ++ str_exn e)])%list).
Proof.
  intros H [E | [(m & Em & E) | (m & r & Em & Er & E)]];
    unfold forecast_stock; take_guard H; run.
  - rewrite E. reflexivity.
  - rewrite Em. simpl. rewrite E. reflexivity.
  - rewrite Em. simpl. rewrite Er. simpl. rewrite E. reflexivity.
Qed.

Lemma len_index (s : Series) : len (index s) = len s.
Proof. unfold len, index. now rewrite length_map. Qed.

Lemma len_range (n : Z) : 0 <= n -> len (range n) = n.
Proof.
  intros H. unfold len, range. rewrite length_map, length_seq. lia.
Qed.

(** C5.  On a non-degenerate series, for any orders for which the model is
    built and fitted and the forecast computed, [forecast_stock] returns
    the 7-step forecast of the fitted model, unchanged.  With the library
    keeping its contract, these are exactly 7 predictions, at the positions
    n, n+1, ..., n+6 that follow the n cleaned observations, in that
    order.  (No bound on p, d, q is needed.) *)
Theorem forecast_seven_steps
    {C : ForecastContract L}
    (series : Series) (p d q : Z) (m : Model) (r : ARIMAResults)
    (fc : Series) (log : Log) :
  degenerate series = false ->
  ARIMA (dropna series) (p, d, q) = Ok m ->
  fit m = Ok r ->
  forecast r 7 = Ok fc ->
  forecast_stock series p d q log =
    (Returns fc,
     (log ++ [mkLog Forecast.logger INFO
               "Forecast generated for 7 days"])%list)
  /\ len fc = 7
  /\ index fc =
       map (fun i => LInt (len (dropna series) + i)) [0; 1; 2; 3; 4; 5; 6].
Proof.
  intros H Em Er Ef.
  pose proof (forecast_index _ _ _ _ _ _ Em Er Ef) as Hi.
  assert (Hl : len fc = 7).
  { rewrite <- len_index, Hi. unfold len. rewrite length_map.
    apply (len_range 7). lia. }
  repeat split.
  - unfold forecast_stock. take_guard H. run.
    rewrite Em. simpl. rewrite Er. simpl. rewrite Ef. simpl.
    rewrite Hl. reflexivity.
  - exact Hl.
  - exact Hi.
Qed.

End ForecastStock.

Lemma double_keeps_contract : ForecastContract Double.lab.
Proof.
  constructor. intros s order m r steps fc Em Er Ef.
  simpl in *. unfold Double.ARIMA in Em. unfold Double.fit in Er.
  unfold Double.forecast in Ef.
  destruct order as [[p d] q].
  destruct ((p <? 0) || (d <? 0) || (q <? 0)); [discriminate |].
  injection Em as <-.
  destruct (len s <=? p + d + q); [discriminate |].
  injection Er as <-. injection Ef as <-.
  unfold index. rewrite map_map. reflexivity.
Defined.

Lemma forecast_failure_is_reraised_singular :
  degenerate (L := Double.lab) Double.rising_prices = false /\
  forecast_stock (L := Double.lab) Double.rising_prices 10 1 1 [] =
    (Raises (Exc "LinAlgError" "Singular matrix"),
     [mkLog Forecast.logger ERROR "ARIMA forecast failed: Singular matrix"]).
Proof.
  assert (H : degenerate (L := Double.lab) Double.rising_prices = false)
    by (vm_compute; reflexivity).
  split; [exact H |].
  apply (forecast_failure_is_reraised (L := Double.lab)
           Double.rising_prices 10 1 1
           (Exc "LinAlgError" "Singular matrix") [] H).
  right. left. exists (dropna Double.rising_prices, (10, 1, 1)).
  split; vm_compute; reflexivity.
Defined.

Lemma forecast_seven_steps_rising :
  degenerate (L := Double.lab) Double.rising_prices = false /\
  exists fc : Series,
    fst (forecast_stock (L := Double.lab) Double.rising_prices 1 1 1 []) =
      Returns fc
    /\ len fc = 7
    /\ index fc =
         [LInt 10; LInt 11; LInt 12; LInt 13; LInt 14; LInt 15; LInt 16].
Proof.
  assert (H : degenerate (L := Double.lab) Double.rising_prices = false)
    by (vm_compute; reflexivity).
  split; [exact H |].
  destruct (forecast_seven_steps (L := Double.lab) (C := double_keeps_contract)
              Double.rising_prices 1 1 1
              (dropna Double.rising_prices, (1, 1, 1))
              (dropna Double.rising_prices)
              (map (fun i => (LInt (10 + i), 145%float)) (range 7))
              [] H)
    as (Hrun & Hlen & Hidx); try (vm_compute; reflexivity).
  eexists. rewrite Hrun. simpl. split; [reflexivity |].
  split; [exact Hlen | exact Hidx].
Defined.

(* ===================================================================== *)
(** ** The differencing loop *)
(* ===================================================================== *)

Section DifferencingLoop.
Context {L : Libraries}.

Lemma differenced_zero (t : Series) : differenced 0 t = t.
Proof. reflexivity. Qed.

Lemma differenced_succ (k : Z) (t : Series) :
  0 <= k -> differenced (k + 1) t = differenced k (difference t).
Proof.
  intros Hk. unfold differenced.
  replace (Z.to_nat (k + 1)) with (S (Z.to_nat k)) by lia.
  apply Nat.iter_succ_r.
Qed.

(** The loop only calls the unit-root test: it logs nothing. *)
Lemma differencing_loop_log (fuel : nat) :
  forall t d log, snd (differencing_loop fuel t d log) = log.
Proof.
  induction fuel as [| fuel IH]; intros t d log; simpl.
  - reflexivity.
  - run. destruct (adfuller t) as [r | e]; simpl; [| reflexivity].
    destruct ((0.05 <? pvalue r)%float && (d <? 2)); [apply IH | reflexivity].
Qed.

(** With fuel for three evaluations of the condition, the function follows
    a run of the loop to its end. *)
Lemma differencing_loop_run (fuel : nat) :
  forall t d log,
    0 <= d <= 2 -> (Z.to_nat (3 - d) <= fuel)%nat ->
    exists o,
      loop_run t d o /\ o <> OutOfFuel /\
      differencing_loop fuel t d log = (o, log).
Proof.
  induction fuel as [| fuel IH]; intros t d log Hd Hf.
  - lia.
  - simpl. run. destruct (adfuller t) as [r | e] eqn:E; simpl.
    + destruct (0.05 <? pvalue r)%float eqn:Hp;
        destruct (d <? 2) eqn:Hc; simpl.
      * destruct (IH (difference t) (d + 1) log) as (o & Ho & Hn & Hl);
          [apply Z.ltb_lt in Hc; lia | apply Z.ltb_lt in Hc; lia |].
        exists o. repeat split; trivial.
        eapply run_body; eassumption.
      * exists (Returns (t, d)). repeat split; [| discriminate].
        eapply run_leave; [eassumption |]. now rewrite Hp, Hc.
      * exists (Returns (t, d)). repeat split; [| discriminate].
        eapply run_leave; [eassumption |]. now rewrite Hp.
      * exists (Returns (t, d)). repeat split; [| discriminate].
        eapply run_leave; [eassumption |]. now rewrite Hp.
    + exists (Raises e). repeat split; [| discriminate].
      now apply run_raise.
Qed.

Lemma loop_run_deterministic (t : Series) (d : Z) (o1 o2 : outcome (Series * Z)) :
  loop_run t d o1 -> loop_run t d o2 -> o1 = o2.
Proof.
  intros H1. revert o2.
  induction H1 as [t d e E | t d r E Hc | t d r o E Hp Hc H1 IH];
    intros o2 H2; inversion H2; subst; try congruence;
    try match goal with
        | Ha : adfuller ?t = Ok ?a, Hb : adfuller ?t = Ok ?b |- _ =>
            assert (a = b) by congruence; subst b
        end.
  - match goal with
    | Hx : (0.05 <? _)%float = true, Hy : (_ <? 2) = true |- _ =>
        rewrite Hx, Hy in Hc; discriminate
    end.
  - match goal with
    | Hf : _ && _ = false |- _ => rewrite Hp, Hc in Hf; discriminate
    end.
  - now apply IH.
Qed.

(** What holds when a run started within the cap leaves the loop. *)
Lemma loop_run_returns (t : Series) (d0 : Z) (o : outcome (Series * Z)) :
  loop_run t d0 o ->
  forall t' d', o = Returns (t', d') -> 0 <= d0 <= 2 ->
    d0 <= d' <= 2 /\
    t' = differenced (d' - d0) t /\
    (forall k, 0 <= k < d' - d0 ->
       exists r, adfuller (differenced k t) = Ok r /\
                 (0.05 <? pvalue r)%float = true) /\
    exists r, adfuller t' = Ok r /\
              ((0.05 <? pvalue r)%float = false \/ d' = 2).
Proof.
  induction 1 as [t d e E | t d r E Hc | t d r o E Hp Hc H1 IH];
    intros t' d' Ho Hd.
  - discriminate.
  - injection Ho as <- <-. split; [lia |]. split.
    + now rewrite Z.sub_diag.
    + split; [intros k Hk; lia |].
      exists r. split; [exact E |].
      apply andb_false_iff in Hc. destruct Hc as [Hc | Hc]; [now left |].
      right. apply Z.ltb_ge in Hc. lia.
  - apply Z.ltb_lt in Hc.
    destruct (IH t' d' Ho) as (Hb & Ht & Hk & Hr); [lia |].
    split; [lia |]. split.
    + replace (d' - d) with ((d' - (d + 1)) + 1) by lia.
      rewrite differenced_succ by lia. exact Ht.
    + split; [| exact Hr].
      intros k Hk'. destruct (Z.eq_dec k 0) as [-> | Hne].
      * exists r. now split.
      * replace k with ((k - 1) + 1) by lia.
        rewrite differenced_succ by lia. apply Hk. lia.
Qed.

(** A run that raises does so in one of its unit-root tests. *)
Lemma loop_run_raises (t : Series) (d0 : Z) (o : outcome (Series * Z)) :
  loop_run t d0 o ->
  forall e, o = Raises e -> 0 <= d0 <= 2 ->
    exists k, 0 <= k <= 2 - d0 /\ adfuller (differenced k t) = Err e.
Proof.
  induction 1 as [t d e' E | t d r E Hc | t d r o E Hp Hc H1 IH];
    intros e Ho Hd.
  - injection Ho as <-. exists 0. split; [lia | exact E].
  - discriminate.
  - apply Z.ltb_lt in Hc.
    destruct (IH e Ho) as (k & Hk & Ek); [lia |].
    exists (k + 1). split; [lia |].
    now rewrite differenced_succ by lia.
Qed.

End DifferencingLoop.

(* ===================================================================== *)
(** ** Reading an order off a correlogram *)
(* ===================================================================== *)

Section OrderRule.

Lemma filter_seq_first (f : Z -> bool) (n : nat) :
  forall a : nat,
    (exists (i : nat) (rest : list Z),
        (a <= i < a + n)%nat /\ f (Z.of_nat i) = true /\
        (forall j : nat, (a <= j < i)%nat -> f (Z.of_nat j) = false) /\
        filter f (map Z.of_nat (seq a n)) = Z.of_nat i :: rest)
    \/ ((forall j : nat, (a <= j < a + n)%nat -> f (Z.of_nat j) = false) /\
        filter f (map Z.of_nat (seq a n)) = []).
Proof.
  induction n as [| n IH]; intros a.
  - right. split; [intros j Hj; lia | reflexivity].
  - simpl. destruct (f (Z.of_nat a)) eqn:Ha.
    + left. exists a. eexists. repeat split; try lia; trivial.
    + destruct (IH (S a)) as [(i & rest & Hi & Hfi & Hlt & Hfil) | (Hall & Hfil)].
      * left. exists i, rest. repeat split; try lia; trivial.
        intros j Hj. destruct (Nat.eq_dec j a) as [-> | Hne]; [exact Ha |].
        apply Hlt. lia.
      * right. split; [| exact Hfil].
        intros j Hj. destruct (Nat.eq_dec j a) as [-> | Hne]; [exact Ha |].
        apply Hall. lia.
Qed.

(** [first_lag] is the first exceeding position, or 1 when there is none;
    capped at 10 it obeys the order rule. *)
Lemma first_lag_rule (v : list float) :
  order_rule v (Z.min (first_lag v) 10).
Proof.
  unfold order_rule, first_lag, next, range.
  destruct (filter_seq_first (exceeds v) (Z.to_nat (len v)) 0)
    as [(i & rest & Hi & Hfi & Hlt & Hfil) | (Hall & Hfil)];
    rewrite Hfil; simpl.
  - left. exists (Z.of_nat i). split; [| reflexivity].
    unfold smallest_exceeding. split; [| split].
    + unfold len in *. lia.
    + exact Hfi.
    + intros j Hj. rewrite <- (Z2Nat.id j) by lia. apply Hlt. lia.
  - right. split; [| reflexivity].
    intros j Hj. rewrite <- (Z2Nat.id j) by lia. apply Hall.
    unfold len in *. lia.
Qed.

Lemma order_rule_bounds (v : list float) (order : Z) :
  order_rule v order -> 0 <= order <= 10.
Proof.
  intros [(i & (Hi & _) & ->) | (_ & ->)]; lia.
Qed.

End OrderRule.

(* ===================================================================== *)
(** ** [get_arima_params] *)
(* ===================================================================== *)

Section GetArimaParams.
Context {L : Libraries}.

(** The proposal, when the loop and every library call succeed. *)
Lemma get_arima_params_run
    (fuel : nat) (series : Series) (log : Log)
    (temp : Series) (d : Z) (png : list Byte.byte) (pv av : list float) :
  degenerate series = false ->
  differencing_loop fuel (dropna series) 0 log = (Returns (temp, d), log) ->
  plot_acf temp 20 = Ok tt ->
  plot_pacf temp 20 = Ok tt ->
  savefig (correlogram temp) "png" = Ok png ->
  pacf temp 20 = Ok pv ->
  acf temp 20 = Ok av ->
  get_arima_params fuel series log =
    (Returns (Z.min (first_lag (skipn 1 pv)) 10, d,
              Z.min (first_lag (skipn 1 av)) 10, PyBytesIO png),
     (log ++ [mkLog Forecast.logger INFO
               ("ARIMA parameters determined: p="
                  ++ str_int (Z.min (first_lag (skipn 1 pv)) 10)
                  ++ ", d=" ++ str_int d ++ ", q="
                  ++ str_int (Z.min (first_lag (skipn 1 av)) 10))])%list).
Proof.
  intros H Hl Ea Ep Es Epv Eav.
  unfold get_arima_params. take_guard H.
  unfold bind, copy. rewrite Hl.
  unfold call. rewrite Ea, Ep, Es, Epv, Eav. reflexivity.
Qed.

(** Conversely, a proposal comes from a loop that returned and from
    library calls that all succeeded. *)
Lemma get_arima_params_inv
    (fuel : nat) (series : Series) (log log' : Log)
    (p d q : Z) (buf : pyobj) :
  degenerate series = false ->
  get_arima_params fuel series log = (Returns (p, d, q, buf), log') ->
  exists temp png pv av,
    differencing_loop fuel (dropna series) 0 log = (Returns (temp, d), log) /\
    plot_acf temp 20 = Ok tt /\
    plot_pacf temp 20 = Ok tt /\
    savefig (correlogram temp) "png" = Ok png /\
    pacf temp 20 = Ok pv /\
    acf temp 20 = Ok av /\
    p = Z.min (first_lag (skipn 1 pv)) 10 /\
    q = Z.min (first_lag (skipn 1 av)) 10 /\
    buf = PyBytesIO png.
Proof.
  intros H. unfold get_arima_params. take_guard H. unfold bind, copy.
  pose proof (differencing_loop_log fuel (dropna series) 0 log) as Hlog.
  destruct (differencing_loop fuel (dropna series) 0 log)
    as [[[temp d0] | e |] log1]; simpl in Hlog; subst log1;
    try discriminate.
  unfold call.
  destruct (plot_acf temp 20) as [[] | e] eqn:Ea; simpl; try discriminate.
  destruct (plot_pacf temp 20) as [[] | e] eqn:Ep; simpl; try discriminate.
  destruct (savefig (correlogram temp) "png") as [png | e] eqn:Es; simpl;
    try discriminate.
  destruct (pacf temp 20) as [pv | e] eqn:Epv; simpl; try discriminate.
  destruct (acf temp 20) as [av | e] eqn:Eav; simpl; try discriminate.
  intros E. injection E as <- <- <- <- _.
  exists temp, png, pv, av. repeat split; trivial.
Qed.

(** A failure of the loop is the failure of the call. *)
Lemma get_arima_params_loop_raises
    (fuel : nat) (series : Series) (log : Log) (e : exn) :
  degenerate series = false ->
  differencing_loop fuel (dropna series) 0 log = (Raises e, log) ->
  get_arima_params fuel series log = (Raises e, log).
Proof.
  intros H Hl. unfold get_arima_params. take_guard H.
  unfold bind, copy. rewrite Hl. reflexivity.
Qed.

(** The function follows the run that the relation describes. *)
Lemma differencing_loop_follows
    (fuel : nat) (c : Series) (log : Log) (o : outcome (Series * Z)) :
  (3 <= fuel)%nat -> loop_run c 0 o ->
  differencing_loop fuel c 0 log = (o, log).
Proof.
  intros Hf Ho.
  destruct (differencing_loop_run fuel c 0 log) as (o' & Ho' & _ & Hl);
    [lia | simpl; lia |].
  now rewrite (loop_run_deterministic _ _ _ _ Ho Ho').
Qed.

Lemma loop_run_raise_at (e : exn) (n : nat) :
  forall (t : Series) (d : Z),
    0 <= d -> d + Z.of_nat n <= 2 ->
    (forall j : nat, (j < n)%nat ->
       exists r, adfuller (Nat.iter j difference t) = Ok r /\
                 (0.05 <? pvalue r)%float = true) ->
    adfuller (Nat.iter n difference t) = Err e ->
    loop_run t d (Raises e).
Proof.
  induction n as [| n IH]; intros t d Hd Hn Hok He.
  - now apply run_raise.
  - destruct (Hok 0%nat) as (r & Er & Hp); [lia |]. simpl in Er.
    apply (run_body t d r); trivial.
    + apply Z.ltb_lt. lia.
    + apply IH; try lia.
      * intros j Hj. rewrite <- Nat.iter_succ_r. apply Hok. lia.
      * now rewrite <- Nat.iter_succ_r.
Qed.

End GetArimaParams.

Section Proposal.
Context {L : Libraries}.


(** C3, as the code has it.  On a non-degenerate series the loop,
    started from the cleaned series with a count of 0, ends (three
    evaluations of its condition are enough) without a trace in the log.
    When it leaves with (temp, d): d is between 0 and 2; temp is the
    cleaned series differenced d times, each time by [diff] then
    [dropna]; each of these d steps was taken after a test whose p-value
    exceeded 0.05; and the loop was left because the p-value of the test
    on temp does not exceed 0.05, that is, it is at most 0.05 or it is
    [nan], or because d is 2.  Otherwise the loop ends because one of at
    most three unit-root tests raised.  The d of a returned proposal is
    the d of the loop, so it never exceeds 2. *)
Theorem differencing_is_bounded
    (fuel : nat) (series : Series) (log : Log) :
  degenerate series = false ->
  (3 <= fuel)%nat ->
  exists o,
    differencing_loop fuel (copy (dropna series)) 0 log = (o, log)
    /\ o <> OutOfFuel
    /\ (forall temp d, o = Returns (temp, d) ->
          0 <= d <= 2
          /\ temp = differenced d (dropna series)
          /\ (forall k, 0 <= k < d ->
                exists r, adfuller (differenced k (dropna series)) = Ok r /\
                          (0.05 <? pvalue r)%float = true)
          /\ exists r, adfuller temp = Ok r
                /\ ((0.05 <? pvalue r)%float = false \/ d = 2)
                /\ ((pvalue r <=? 0.05)%float = true
                    \/ is_nan (pvalue r) = true \/ d = 2))
    /\ (forall e, o = Raises e ->
          exists k, 0 <= k <= 2 /\
                    adfuller (differenced k (dropna series)) = Err e)
    /\ (forall p d q buf log',
          get_arima_params fuel series log = (Returns (p, d, q, buf), log') ->
          0 <= d <= 2 /\ exists temp, o = Returns (temp, d)).
Proof.
  intros H Hf. unfold copy.
  destruct (differencing_loop_run fuel (dropna series) 0 log)
    as (o & Ho & Hn & Hl); [lia | simpl; lia |].
  exists o. split; [exact Hl |]. split; [exact Hn |].
  assert (Hret : forall temp d, o = Returns (temp, d) ->
            0 <= d <= 2
            /\ temp = differenced d (dropna series)
            /\ (forall k, 0 <= k < d ->
                  exists r, adfuller (differenced k (dropna series)) = Ok r /\
                            (0.05 <? pvalue r)%float = true)
            /\ exists r, adfuller temp = Ok r
                  /\ ((0.05 <? pvalue r)%float = false \/ d = 2)
                  /\ ((pvalue r <=? 0.05)%float = true
                      \/ is_nan (pvalue r) = true \/ d = 2)).
  { intros temp d Eo.
    destruct (loop_run_returns _ _ _ Ho temp d Eo)
      as (Hd & Ht & Hk & r & Er & Hr); [lia |].
    rewrite Z.sub_0_r in Ht, Hk.
    split; [lia |]. split; [exact Ht |]. split; [exact Hk |].
    exists r. split; [exact Er |]. split; [exact Hr |].
    destruct Hr as [Hr | Hr]; [| now right; right].
    destruct (is_nan (pvalue r)) eqn:Hnan; [now right; left | left].
    apply not_gt_le; trivial. }
  split; [exact Hret |]. split.
  - intros e Eo.
    destruct (loop_run_raises _ _ _ Ho e Eo) as (k & Hk & Ek); [lia |].
    exists k. split; [lia | exact Ek].
  - intros p d q buf log' E.
    destruct (get_arima_params_inv _ _ _ _ _ _ _ _ H E)
      as (temp & _ & _ & _ & Hl' & _).
    assert (Eo : o = Returns (temp, d)) by congruence.
    split; [apply (Hret temp d Eo) | now exists temp].
Qed.

(** C8, as the code has it.  On a non-degenerate series, when the loop
    leaves with a final series and the library calls on it succeed,
    [get_arima_params] returns p, d, q and one in-memory PNG image:
    the bytes matplotlib writes for the figure of the ACF and PACF plots of
    the final series (20 lags each, titled "ACF" and "PACF").  Every
    proposal it returns has this shape; the numeric autocorrelations and
    partial autocorrelations up to lag 20, lag 0 removed, are computed to
    derive p and q and are not part of what is returned. *)
Theorem proposal_carries_rendered_plot
    (fuel : nat) (series : Series) (log : Log) :
  degenerate series = false ->
  (3 <= fuel)%nat ->
  (forall temp d png pv av,
     loop_run (dropna series) 0 (Returns (temp, d)) ->
     plot_acf temp 20 = Ok tt ->
     plot_pacf temp 20 = Ok tt ->
     savefig (correlogram temp) "png" = Ok png ->
     pacf temp 20 = Ok pv ->
     acf temp 20 = Ok av ->
     exists p q log',
       get_arima_params fuel series log =
         (Returns (p, d, q, PyBytesIO png), log'))
  /\
  (forall p d q buf log',
     get_arima_params fuel series log = (Returns (p, d, q, buf), log') ->
     exists temp png pv av,
       loop_run (dropna series) 0 (Returns (temp, d)) /\
       savefig (mkFigure (10, 8)
                  [ mkAxes [AcfPlot temp 20] "ACF";
                    mkAxes [PacfPlot temp 20] "PACF" ] true) "png" = Ok png /\
       buf = PyBytesIO png /\
       curves_of buf = None /\
       pacf temp 20 = Ok pv /\
       acf temp 20 = Ok av /\
       p = Z.min (first_lag (skipn 1 pv)) 10 /\
       q = Z.min (first_lag (skipn 1 av)) 10).
Proof.
  intros H Hf. split.
  - intros temp d png pv av Hrun Ea Ep Es Epv Eav.
    do 3 eexists.
    apply (get_arima_params_run fuel series log temp d png pv av); trivial.
    now apply differencing_loop_follows.
  - intros p d q buf log' E.
    destruct (get_arima_params_inv _ _ _ _ _ _ _ _ H E)
      as (temp & png & pv & av & Hl & _ & _ & Es & Epv & Eav & -> & -> & ->).
    exists temp, png, pv, av.
    destruct (differencing_loop_run fuel (dropna series) 0 log)
      as (o & Ho & _ & Hl'); [lia | simpl; lia |].
    assert (o = Returns (temp, d)) by congruence. subst o.
    repeat split; trivial.
Qed.

(** C10.  [get_arima_params] has no handler around the unit-root test: on
    a non-degenerate series, when the test raises at the first evaluation
    of the loop condition, or at a later one reached through p-values above
    0.05, the call raises that exception, without logging, and returns no
    proposal. *)
Theorem unit_root_failure_propagates
    (fuel : nat) (series : Series) (log : Log) (k : Z) (e : exn) :
  degenerate series = false ->
  (3 <= fuel)%nat ->
  0 <= k <= 2 ->
  (forall j, 0 <= j < k ->
     exists r, adfuller (differenced j (dropna series)) = Ok r /\
               (0.05 <? pvalue r)%float = true) ->
  adfuller (differenced k (dropna series)) = Err e ->
  get_arima_params fuel series log = (Raises e, log).
Proof.
  intros H Hf Hk Hok He.
  apply get_arima_params_loop_raises; [exact H |].
  apply differencing_loop_follows; [exact Hf |].
  apply (loop_run_raise_at e (Z.to_nat k)); try lia.
  - intros j Hj.
    destruct (Hok (Z.of_nat j)) as (r & Er & Hp); [lia |].
    exists r. unfold differenced in Er. rewrite Nat2Z.id in Er. now split.
  - exact He.
Qed.

End Proposal.

(* ===================================================================== *)
(** ** The properties on concrete series *)
(* ===================================================================== *)

Example first_lag_at_lag_one :
  Z.min (first_lag [0.5; 0.1; 0.3]%float) 10 = 0.
Proof. vm_compute. reflexivity. Qed.

Example first_lag_at_lag_three :
  Z.min (first_lag [0.1; (-0.2); (-0.21); 0.9]%float) 10 = 2.
Proof. vm_compute. reflexivity. Qed.

Example first_lag_default :
  Z.min (first_lag [0.1; 0.2; (-0.2); nan]%float) 10 = 1.
Proof. vm_compute. reflexivity. Qed.

Example first_lag_capped :
  Z.min (first_lag (repeat 0%float 15 ++ [0.25%float])%list) 10 = 10.
Proof. vm_compute. reflexivity. Qed.

Example curves_of_two_arrays (a b : list float) :
  curves_of (PyTuple [PyArray a; PyArray b]) = Some (a, b).
Proof. reflexivity. Qed.

Example curves_of_png (png : list Byte.byte) :
  curves_of (PyBytesIO png) = None.
Proof. reflexivity. Qed.

Example diff_then_dropna :
  values (difference (Double.labelled [3; 5; 4; nan; 8]%float))
  = [2; (-1)]%float.
Proof. vm_compute. reflexivity. Qed.

Example degenerate_single_observation :
  degenerate (L := Double.lab) Double.gappy_prices = true.
Proof. vm_compute. reflexivity. Qed.

Lemma steady_not_degenerate :
  degenerate (L := Double.lab) Double.steady_prices = false.
Proof. vm_compute. reflexivity. Defined.

Lemma steady_proposal :
  get_arima_params (L := Double.lab) 3 Double.steady_prices [] =
    (Returns (2, 0, 0,
              PyBytesIO [Byte.x89; Byte.x50; Byte.x4e; Byte.x47;
                         Byte.x00; Byte.x00]),
     [mkLog Forecast.logger INFO
        "ARIMA parameters determined: p=2, d=0, q=0"]).
Proof. vm_compute. reflexivity. Defined.

Lemma trending_not_degenerate :
  degenerate (L := Double.lab) Double.trending_prices = false.
Proof. vm_compute. reflexivity. Defined.

Lemma trending_proposal :
  get_arima_params (L := Double.lab) 3 Double.trending_prices [] =
    (Returns (2, 1, 0,
              PyBytesIO [Byte.x89; Byte.x50; Byte.x4e; Byte.x47;
                         Byte.x00; Byte.x00]),
     [mkLog Forecast.logger INFO
        "ARIMA parameters determined: p=2, d=1, q=0"]).
Proof. vm_compute. reflexivity. Defined.


Lemma differencing_is_bounded_trending :
  degenerate (L := Double.lab) Double.trending_prices = false /\
  exists temp,
    differencing_loop (L := Double.lab) 3
      (copy (dropna Double.trending_prices)) 0 [] = (Returns (temp, 1), [])
    /\ temp = differenced 1 (dropna Double.trending_prices)
    /\ len temp = 44
    /\ (exists r0, adfuller (Libraries := Double.lab)
                     (dropna Double.trending_prices) = Ok r0
                   /\ (0.05 <? pvalue r0)%float = true)
    /\ exists r, adfuller (Libraries := Double.lab) temp = Ok r
                 /\ ((pvalue r <=? 0.05)%float = true
                     \/ is_nan (pvalue r) = true \/ 1 = 2).
Proof.
  split; [exact trending_not_degenerate |].
  destruct (differencing_is_bounded (L := Double.lab) 3
              Double.trending_prices [] trending_not_degenerate (le_n 3))
    as (o & Hl & _ & Hret & _).
  assert (E : differencing_loop (L := Double.lab) 3
                (copy (dropna Double.trending_prices)) 0 []
              = (Returns (differenced 1 (dropna Double.trending_prices), 1),
                 []))
    by (vm_compute; reflexivity).
  assert (Eo : o = Returns (differenced 1 (dropna Double.trending_prices), 1))
    by congruence.
  destruct (Hret _ _ Eo) as (_ & _ & Hsteps & r & Er & _ & Hexit).
  exists (differenced 1 (dropna Double.trending_prices)).
  split; [exact E |]. split; [reflexivity |].
  split; [vm_compute; reflexivity |].
  split; [apply (Hsteps 0); lia |].
  exists r. now split.
Defined.

(** C3, as the claim has it, fails: on 44 observations of the order of
    1e200 the unit-root test gives a p-value that is [nan]; the loop
    leaves at once, with d = 0, although that p-value is not at most 0.05
    and the cap is not reached. *)
Lemma nan_pvalue_leaves_the_loop :
  degenerate (L := Double.lab) Double.huge_prices = false /\
  (exists r,
     differencing_loop (L := Double.lab) 3
       (copy (dropna Double.huge_prices)) 0 [] =
       (Returns (dropna Double.huge_prices, 0), []) /\
     adfuller (Libraries := Double.lab) (dropna Double.huge_prices) = Ok r /\
     is_nan (pvalue r) = true /\
     (0.05 <? pvalue r)%float = false /\
     (pvalue r <=? 0.05)%float = false) /\
  ~ leaves_as_specified (L := Double.lab) 3 Double.huge_prices [].
Proof.
  assert (E : differencing_loop (L := Double.lab) 3
                (copy (dropna Double.huge_prices)) 0 []
              = (Returns (dropna Double.huge_prices, 0), []))
    by (vm_compute; reflexivity).
  assert (Ea : adfuller (Libraries := Double.lab)
                 (dropna Double.huge_prices)
               = Ok (mkADF nan nan 0 43 Double.critical_values 0%float))
    by (vm_compute; reflexivity).
  split; [vm_compute; reflexivity |]. split.
  - eexists. split; [exact E |]. split; [exact Ea |].
    repeat split; vm_compute; reflexivity.
  - intros (temp & d & r & Hl & Hr & Hexit).
    rewrite E in Hl.
    assert (Ht : temp = dropna Double.huge_prices) by congruence.
    assert (Hd0 : d = 0) by congruence.
    subst temp d. rewrite Ea in Hr.
    assert (Hr0 : r = mkADF nan nan 0 43 Double.critical_values 0%float)
      by congruence.
    subst r.
    destruct Hexit as [Hle | Hd]; [vm_compute in Hle |]; discriminate.
Qed.

Lemma proposal_carries_rendered_plot_steady :
  degenerate (L := Double.lab) Double.steady_prices = false /\
  exists p d q png,
    fst (get_arima_params (L := Double.lab) 3 Double.steady_prices []) =
      Returns (p, d, q, PyBytesIO png)
    /\ savefig (Libraries := Double.lab)
         (correlogram (dropna Double.steady_prices)) "png" = Ok png.
Proof.
  split; [exact steady_not_degenerate |].
  destruct (proposal_carries_rendered_plot (L := Double.lab) 3
              Double.steady_prices [] steady_not_degenerate (le_n 3))
    as (Hrun & _).
  destruct (Hrun (dropna Double.steady_prices) 0
              [Byte.x89; Byte.x50; Byte.x4e; Byte.x47; Byte.x00; Byte.x00]
              (Double.profile [0.1; 0.15; (-0.3); 0.05]%float 20)
              (Double.profile [(-0.6); 0.3; 0.1]%float 20))
    as (p & q & log' & E); try (vm_compute; reflexivity).
  - apply (run_leave (L := Double.lab) _ 0
             (mkADF (-4.2)%float 0.01%float 0 43 Double.critical_values
                0%float));
      vm_compute; reflexivity.
  - exists p, 0, q. eexists. rewrite E. simpl. split; reflexivity.
Defined.

(** C8, as the claim has it, fails: on 44 observations, enough for every
    library call to succeed, the call returns a proposal, and its fourth
    component is a PNG buffer that holds no numeric sequence. *)
Lemma curves_are_not_returned :
  degenerate (L := Double.lab) Double.steady_prices = false /\
  (exists p d q png log',
     get_arima_params (L := Double.lab) 3 Double.steady_prices [] =
       (Returns (p, d, q, PyBytesIO png), log')) /\
  ~ returns_curves_as_data (L := Double.lab) 3 Double.steady_prices [].
Proof.
  split; [exact steady_not_degenerate |]. split.
  - do 5 eexists. exact steady_proposal.
  - intros (p & d & q & buf & log' & a & b & Hrun & Hc & _).
    rewrite steady_proposal in Hrun. injection Hrun as <- <- <- <- <-.
    simpl in Hc. discriminate.
Qed.

Lemma unit_root_failure_propagates_short :
  degenerate (L := Double.lab) Double.short_prices = false /\
  get_arima_params (L := Double.lab) 3 Double.short_prices [] =
    (Raises (Exc "ValueError"
               "sample size is too short to use selected regression component"),
     []).
Proof.
  assert (H : degenerate (L := Double.lab) Double.short_prices = false)
    by (vm_compute; reflexivity).
  split; [exact H |].
  apply (unit_root_failure_propagates (L := Double.lab) 3
           Double.short_prices [] 0 _ H (le_n 3)).
  - lia.
  - intros j Hj. lia.
  - vm_compute. reflexivity.
Defined.

(* ===================================================================== *)
(** ** Cleaning and differencing of a Series *)
(* ===================================================================== *)

Section Cleaning.

Lemma subsequence_refl {A} (xs : list A) : subsequence xs xs.
Proof.
  induction xs; [apply sub_nil | now apply sub_keep].
Qed.

Lemma subsequence_trans {A} (ys zs : list A) :
  subsequence ys zs -> forall xs, subsequence xs ys -> subsequence xs zs.
Proof.
  induction 1 as [| z ys zs H IH | y ys zs H IH]; intros xs Hx.
  - exact Hx.
  - apply sub_skip. now apply IH.
  - inversion Hx; subst.
    + apply sub_skip. now apply IH.
    + apply sub_keep. now apply IH.
Qed.

Lemma subsequence_tl_l {A} (xs ys : list A) :
  subsequence xs ys -> subsequence (tl xs) ys.
Proof.
  induction 1 as [| y xs ys H IH | x xs ys H IH]; simpl.
  - apply sub_nil.
  - now apply sub_skip.
  - now apply sub_skip.
Qed.

Lemma subsequence_tl {A} (xs ys : list A) :
  subsequence xs ys -> subsequence (tl xs) (tl ys).
Proof.
  destruct 1 as [| y xs ys H | x xs ys H]; simpl.
  - apply sub_nil.
  - now apply subsequence_tl_l.
  - exact H.
Qed.

Lemma subsequence_length {A} (xs ys : list A) :
  subsequence xs ys -> (List.length xs <= List.length ys)%nat.
Proof. induction 1; simpl; lia. Qed.

Lemma subsequence_filter {A} (f : A -> bool) (xs : list A) :
  subsequence (filter f xs) xs.
Proof.
  induction xs as [| x xs IH]; simpl; [apply sub_nil |].
  destruct (f x); [now apply sub_keep | now apply sub_skip].
Qed.

Lemma subsequence_map {A B} (g : A -> B) (xs ys : list A) :
  subsequence xs ys -> subsequence (map g xs) (map g ys).
Proof.
  induction 1; simpl;
    [apply sub_nil | now apply sub_skip | now apply sub_keep].
Qed.

Lemma dropna_idempotent (s : Series) : dropna (dropna s) = dropna s.
Proof.
  unfold dropna. induction s as [| [l x] s IH]; simpl; [reflexivity |].
  destruct (is_nan x) eqn:E; simpl; [exact IH |].
  rewrite E. simpl. now rewrite IH.
Qed.

Lemma dropna_no_missing (s : Series) : no_missing (dropna s).
Proof.
  unfold no_missing, values, dropna.
  induction s as [| [l x] s IH]; simpl; [constructor |].
  destruct (is_nan x) eqn:E; simpl; [exact IH |].
  constructor; assumption.
Qed.

Lemma index_diff_from (prev : float) (s : Series) :
  index (diff_from prev s) = index s.
Proof.
  revert prev. induction s as [| [l x] s IH]; intros prev; simpl;
    [reflexivity |].
  unfold index in *. simpl. now rewrite IH.
Qed.

(** One round of differencing keeps the labels of the observations it
    keeps, in order, and never the first one. *)
Lemma index_difference (s : Series) :
  subsequence (index (difference s)) (tl (index s)).
Proof.
  unfold difference. destruct s as [| [l x] s]; simpl; [apply sub_nil |].
  unfold dropna at 1. simpl.
  replace (index s) with (index (diff_from x s)) by apply index_diff_from.
  apply subsequence_map. apply subsequence_filter.
Qed.

Lemma tl_skipn {A} (n : nat) :
  forall l : list A, tl (skipn n l) = skipn (S n) l.
Proof.
  induction n as [| n IH]; intros l.
  - destruct l; reflexivity.
  - destruct l as [| a l]; [reflexivity |].
    change (skipn (S n) (a :: l)) with (skipn n l).
    change (skipn (S (S n)) (a :: l)) with (skipn (S n) l).
    apply IH.
Qed.

Lemma index_differenced (n : nat) (s : Series) :
  subsequence (index (Nat.iter n difference s)) (skipn n (index s)).
Proof.
  induction n as [| n IH]; simpl Nat.iter.
  - apply subsequence_refl.
  - eapply subsequence_trans; [| apply index_difference].
    rewrite <- tl_skipn. now apply subsequence_tl.
Qed.

Lemma differenced_no_missing (n : nat) (s : Series) :
  no_missing s -> no_missing (Nat.iter n difference s).
Proof.
  intros H. destruct n as [| n]; simpl; [exact H |].
  apply dropna_no_missing.
Qed.

End Cleaning.

(* ===================================================================== *)
(** ** More on floating-point comparisons *)
(* ===================================================================== *)

Section FloatOrderMore.

Lemma ltb_asym (x c : float) :
  (x <? c)%float = true -> (c <? x)%float = false.
Proof.
  rewrite !ltb_spec. unfold SFltb.
  destruct (SFcompare (Prim2SF x) (Prim2SF c)) as [r |] eqn:E;
    [| discriminate].
  apply SFcompare_antisym in E. rewrite E.
  destruct r; simpl; congruence.
Qed.

Lemma SFcompare_refl (a : spec_float) :
  a <> S754_nan -> SFcompare a a = Some Eq.
Proof.
  destruct a as [s | s | | s m e]; simpl; intros H;
    try reflexivity; try congruence.
  - destruct s; reflexivity.
  - rewrite Z.compare_refl.
    change (PosDef.Pos.compare_cont Eq m m) with (Pos.compare m m).
    rewrite Pos.compare_refl. destruct s; reflexivity.
Qed.

Lemma is_nan_spec (x : float) :
  is_nan x = true -> Prim2SF x = S754_nan.
Proof.
  unfold is_nan. rewrite eqb_spec. unfold SFeqb. intros H.
  destruct (Prim2SF x) as [s | s | | s m e] eqn:E; try reflexivity;
    rewrite SFcompare_refl in H by discriminate; discriminate.
Qed.

(** A missing value never exceeds the threshold, whatever its sign. *)
Lemma nan_never_exceeds (x c : float) :
  is_nan x = true -> (c <? abs x)%float = false.
Proof.
  intros H. apply is_nan_spec in H.
  rewrite ltb_spec, abs_spec, H. unfold SFltb.
  destruct (Prim2SF c); reflexivity.
Qed.

End FloatOrderMore.

(* ===================================================================== *)
(** ** The three functions together *)
(* ===================================================================== *)

Section Together.
Context {L : Libraries}.

(** X1.  Cleaning the series before the call, as app.py does for the
    order selection and the forecast ([data[stock].dropna()]), changes
    nothing: each of the three functions gives on [series.dropna()] the
    result, the exception and the log it gives on [series]. *)
Theorem precleaning_changes_nothing
    (fuel : nat) (series : Series) (stock_name : string) (p d q : Z)
    (log : Log) :
  adf_test (dropna series) stock_name log = adf_test series stock_name log
  /\ get_arima_params fuel (dropna series) log =
       get_arima_params fuel series log
  /\ forecast_stock (dropna series) p d q log =
       forecast_stock series p d q log.
Proof.
  unfold adf_test, get_arima_params, forecast_stock. cbv zeta.
  rewrite dropna_idempotent. repeat split.
Qed.

(** X2.  In every proposal [get_arima_params] returns for a
    non-degenerate series, the final series of the loop, the cleaned
    series differenced d times, whose correlograms were computed, has no
    missing value, has lost at least one observation per differencing (at
    most n - d remain of the n cleaned ones), and keeps the labels of its
    observations in their order, none of them among the first d. *)
Theorem final_series_is_clean
    (fuel : nat) (series : Series) (log log' : Log)
    (p d q : Z) (buf : pyobj) :
  degenerate series = false ->
  (3 <= fuel)%nat ->
  get_arima_params fuel series log = (Returns (p, d, q, buf), log') ->
  exists temp pv av,
    loop_run (dropna series) 0 (Returns (temp, d)) /\
    temp = differenced d (dropna series) /\
    pacf temp 20 = Ok pv /\ acf temp 20 = Ok av /\
    no_missing temp /\
    len temp + d <= len (dropna series) /\
    subsequence (index temp) (skipn (Z.to_nat d) (index (dropna series))).
Proof.
  intros H Hf E.
  destruct (get_arima_params_inv _ _ _ _ _ _ _ _ H E)
    as (temp & png & pv & av & Hl & _ & _ & _ & Epv & Eav & _).
  destruct (differencing_loop_run fuel (dropna series) 0 log)
    as (o & Ho & _ & Hl'); [lia | simpl; lia |].
  assert (Eo : o = Returns (temp, d)) by congruence.
  destruct (loop_run_returns _ _ _ Ho temp d Eo) as (Hd & Ht & _); [lia |].
  rewrite Z.sub_0_r in Ht. subst o.
  exists temp, pv, av.
  split; [exact Ho |]. split; [exact Ht |].
  split; [exact Epv |]. split; [exact Eav |].
  unfold differenced in Ht.
  assert (Hs : subsequence (index temp)
                 (skipn (Z.to_nat d) (index (dropna series)))).
  { rewrite Ht. apply index_differenced. }
  split; [| split].
  - rewrite Ht. apply differenced_no_missing, dropna_no_missing.
  - apply subsequence_length in Hs. rewrite length_skipn in Hs.
    unfold degenerate in H. apply orb_false_iff in H. destruct H as [H _].
    apply Z.ltb_ge in H. unfold len, index in *.
    rewrite !length_map in Hs. lia.
  - exact Hs.
Qed.

(** X3.  Every record [adf_test] returns has the same five keys in the
    same order and carries the stock name; the statistic and the p-value
    are numbers together, and exactly when the verdict is "Stationary" or
    "Non-Stationary"; in every other record the three test fields are
    the text "N/A". *)
Theorem adf_result_shape
    (series : Series) (stock_name : string) (log : Log) :
  exists (d : dict) (log' : Log) (verdict : string),
    adf_test series stock_name log = (Returns d, log') /\
    keys d = ["Stock"; "ADF Statistic"; "p-value"; "Critical Values";
              "Stationary"] /\
    dict_get d "Stock" = Some (PyStr stock_name) /\
    dict_get d "Stationary" = Some (PyStr verdict) /\
    is_number (dict_get d "ADF Statistic") = is_number (dict_get d "p-value") /\
    (is_number (dict_get d "p-value") = true <->
       verdict = "Stationary" \/ verdict = "Non-Stationary") /\
    (is_number (dict_get d "p-value") = false ->
       dict_get d "ADF Statistic" = Some (PyStr "N/A") /\
       dict_get d "p-value" = Some (PyStr "N/A") /\
       dict_get d "Critical Values" = Some (PyStr "N/A")).
Proof.
  unfold adf_test. cbv zeta.
  destruct ((len (dropna series) <? 2) || (std (dropna series) =? 0)%float).
  - do 3 eexists. split; [run; reflexivity |].
    repeat split; try reflexivity; try discriminate.
    intros [E | E]; discriminate.
  - destruct (adfuller (dropna series)) as [r | e].
    + do 3 eexists. split; [run; reflexivity |].
      repeat split; try reflexivity; try discriminate.
      intros _. destruct (pvalue r <? 0.05)%float; [now left | now right].
    + do 3 eexists. split; [run; reflexivity |].
      repeat split; try reflexivity; try discriminate.
      intros [E | E]; discriminate.
Qed.

(** X4.  The colour app.py gives the verdict cell of a record of
    [adf_test]: green exactly when the test ran and its p-value is below
    0.05, red exactly when it ran and the p-value is not below 0.05, and no
    colour exactly when the series is degenerate or the test raised. *)
Theorem verdict_cell_color
    (series : Series) (stock_name : string) (log : Log) :
  exists (d : dict) (log' : Log) (cell : pyobj),
    adf_test series stock_name log = (Returns d, log') /\
    dict_get d "Stationary" = Some cell /\
    (color_stationary cell = "background-color: #e6ffe6" <->
       degenerate series = false /\
       exists r, adfuller (dropna series) = Ok r /\
                 (pvalue r <? 0.05)%float = true) /\
    (color_stationary cell = "background-color: #ffe6e6" <->
       degenerate series = false /\
       exists r, adfuller (dropna series) = Ok r /\
                 (pvalue r <? 0.05)%float = false) /\
    (color_stationary cell = "" <->
       degenerate series = true \/
       exists e, adfuller (dropna series) = Err e).
Proof.
  unfold adf_test, degenerate. cbv zeta.
  destruct ((len (dropna series) <? 2) || (std (dropna series) =? 0)%float).
  - do 3 eexists. split; [run; reflexivity |]. split; [reflexivity |].
    simpl. repeat split; try discriminate; try (intros [? _]; discriminate).
    now left.
  - destruct (adfuller (dropna series)) as [r | e].
    + do 3 eexists. split; [run; reflexivity |]. split; [reflexivity |].
      destruct (pvalue r <? 0.05)%float eqn:Hp; simpl; repeat split;
        try discriminate; try (now exists r);
        try (intros (_ & r' & Er & Hr); congruence);
        try (intros [? | (e & ?)]; discriminate).
    + do 3 eexists. split; [run; reflexivity |]. split; [reflexivity |].
      simpl. repeat split; try discriminate;
        try (intros (_ & r' & ? & _); discriminate).
      right. now exists e.
Qed.

End Together.

Section ProposalMore.
Context {L : Libraries}.

(** X5.  Every proposal [get_arima_params] returns, estimated or
    defaulted, lies within the ranges of the widgets app.py initialises
    with it: p and q in [0, 10], d in [0, 2]. *)
Theorem proposal_fits_widgets
    (fuel : nat) (series : Series) (log log' : Log)
    (p d q : Z) (buf : pyobj) :
  (3 <= fuel)%nat ->
  get_arima_params fuel series log = (Returns (p, d, q, buf), log') ->
  within_widget_ranges p d q.
Proof.
  intros Hf E. unfold within_widget_ranges.
  destruct (degenerate series) eqn:H.
  - unfold get_arima_params in E. revert E. take_guard H. run.
    intros E. injection E as <- <- <- _ _. lia.
  - destruct (get_arima_params_inv _ _ _ _ _ _ _ _ H E)
      as (temp & png & pv & av & Hl & _ & _ & _ & _ & _ & -> & -> & _).
    destruct (differencing_loop_run fuel (dropna series) 0 log)
      as (o & Ho & _ & Hl'); [lia | simpl; lia |].
    assert (Eo : o = Returns (temp, d)) by congruence.
    destruct (loop_run_returns _ _ _ Ho temp d Eo) as (Hd & _); [lia |].
    pose proof (order_rule_bounds _ _ (first_lag_rule (skipn 1 pv))).
    pose proof (order_rule_bounds _ _ (first_lag_rule (skipn 1 av))).
    lia.
Qed.

(** X6.  The test app.py makes on the fourth component is sound: in a
    returned proposal it is [None] exactly when the series is degenerate,
    and then the orders are the defaults (1, 0, 1); otherwise it is a PNG
    buffer. *)
Theorem plot_absent_iff_degenerate
    (fuel : nat) (series : Series) (log log' : Log)
    (p d q : Z) (buf : pyobj) :
  get_arima_params fuel series log = (Returns (p, d, q, buf), log') ->
  (buf = PyNone <-> degenerate series = true)
  /\ (degenerate series = true -> (p, d, q) = (1, 0, 1))
  /\ (degenerate series = false -> exists png, buf = PyBytesIO png).
Proof.
  intros E. destruct (degenerate series) eqn:H.
  - unfold get_arima_params in E. revert E. take_guard H. run.
    intros E. injection E as <- <- <- <- _.
    repeat split; trivial; discriminate.
  - destruct (get_arima_params_inv _ _ _ _ _ _ _ _ H E)
      as (temp & png & pv & av & _ & _ & _ & _ & _ & _ & _ & _ & ->).
    repeat split; try discriminate. now exists png.
Qed.

(** X7.  The table and the order selection agree: when [adf_test] gives
    a series the verdict "Stationary", every proposal [get_arima_params]
    returns for it is estimated without differencing, d = 0. *)
Theorem stationary_is_not_differenced
    (fuel : nat) (series : Series) (stock_name : string)
    (log0 log0' log log' : Log) (record : dict)
    (p d q : Z) (buf : pyobj) :
  (3 <= fuel)%nat ->
  adf_test series stock_name log0 = (Returns record, log0') ->
  dict_get record "Stationary" = Some (PyStr "Stationary") ->
  get_arima_params fuel series log = (Returns (p, d, q, buf), log') ->
  d = 0 /\ degenerate series = false.
Proof.
  intros Hf Ea Hv Eg.
  assert (Hr : degenerate series = false /\
               exists r, adfuller (dropna series) = Ok r /\
                         (pvalue r <? 0.05)%float = true).
  { revert Ea. unfold adf_test, degenerate. cbv zeta.
    destruct ((len (dropna series) <? 2)
              || (std (dropna series) =? 0)%float).
    - run. intros E. injection E as <- _. simpl in Hv. discriminate.
    - run. destruct (adfuller (dropna series)) as [r | e]; simpl.
      + intros E. injection E as <- _. simpl in Hv.
        destruct (pvalue r <? 0.05)%float eqn:Hp; [| discriminate].
        split; [reflexivity |]. now exists r.
      + intros E. injection E as <- _. simpl in Hv. discriminate. }
  destruct Hr as (H & r & Er & Hp). split; [| exact H].
  destruct (get_arima_params_inv _ _ _ _ _ _ _ _ H Eg)
    as (temp & png & pv & av & Hl & _).
  apply ltb_asym in Hp.
  assert (Hrun : loop_run (dropna series) 0 (Returns (dropna series, 0))).
  { apply (run_leave _ _ r Er). now rewrite Hp. }
  rewrite (differencing_loop_follows fuel _ log _ Hf Hrun) in Hl.
  congruence.
Qed.

Lemma first_lag_zero (v : list float) :
  Z.min (first_lag v) 10 = 0 <->
  exists x rest, v = x :: rest /\ (0.2 <? abs x)%float = true.
Proof.
  split.
  - intros E.
    destruct (first_lag_rule v) as [(i & (Hi & Hx & _) & Hp) | (_ & Hp)];
      [| lia].
    assert (i = 0) by lia. subst i.
    destruct v as [| x rest]; [unfold len in Hi; simpl in Hi; lia |].
    exists x, rest. split; [reflexivity | exact Hx].
  - intros (x & rest & -> & Hx).
    unfold first_lag, next, range, len.
    rewrite Nat2Z.id. simpl seq. simpl map. simpl filter.
    assert (Hx0 : exceeds (x :: rest) 0 = true) by exact Hx.
    rewrite Hx0. reflexivity.
Qed.

(** X8.  In every proposal returned for a non-degenerate series, with
    the correlograms of the final series of the loop (the cleaned series
    differenced d times): p is 0 exactly when the partial autocorrelation
    at lag 1 exceeds 0.2 in magnitude, and q is 0 exactly when the
    autocorrelation at lag 1 does. *)
Theorem zero_order_iff_lag_one
    (fuel : nat) (series : Series) (log log' : Log)
    (p d q : Z) (buf : pyobj) :
  degenerate series = false ->
  (3 <= fuel)%nat ->
  get_arima_params fuel series log = (Returns (p, d, q, buf), log') ->
  exists temp pv av,
    loop_run (dropna series) 0 (Returns (temp, d)) /\
    temp = differenced d (dropna series) /\
    pacf temp 20 = Ok pv /\ acf temp 20 = Ok av /\
    (p = 0 <-> exists x rest, skipn 1 pv = x :: rest /\
                              (0.2 <? abs x)%float = true) /\
    (q = 0 <-> exists x rest, skipn 1 av = x :: rest /\
                              (0.2 <? abs x)%float = true).
Proof.
  intros H Hf E.
  destruct (get_arima_params_inv _ _ _ _ _ _ _ _ H E)
    as (temp & png & pv & av & Hl & _ & _ & _ & Epv & Eav & -> & -> & _).
  destruct (differencing_loop_run fuel (dropna series) 0 log)
    as (o & Ho & _ & Hl'); [lia | simpl; lia |].
  assert (Eo : o = Returns (temp, d)) by congruence.
  destruct (loop_run_returns _ _ _ Ho temp d Eo) as (_ & Ht & _); [lia |].
  rewrite Z.sub_0_r in Ht. subst o.
  exists temp, pv, av.
  split; [exact Ho |]. split; [exact Ht |].
  split; [exact Epv |]. split; [exact Eav |].
  split; apply first_lag_zero.
Qed.

(** X9.  Missing values in a correlogram are never selected: an order
    read off a correlogram is the position of a number, and a correlogram
    of missing values only gives the default order 1. *)
Theorem missing_correlations_are_skipped (v : list float) :
  (forall i, smallest_exceeding v i -> is_nan (getitem v i) = false)
  /\ (Forall (fun x => is_nan x = true) v -> Z.min (first_lag v) 10 = 1).
Proof.
  split.
  - intros i (_ & Hx & _). unfold exceeds in Hx.
    destruct (is_nan (getitem v i)) eqn:E; [| reflexivity].
    rewrite (nan_never_exceeds _ _ E) in Hx. discriminate.
  - intros Hall.
    destruct (first_lag_rule v) as [(i & (Hi & Hx & _) & _) | (_ & Hp)];
      [| exact Hp].
    unfold exceeds, getitem in Hx.
    assert (Hn : is_nan (nth (Z.to_nat i) v nan) = true).
    { rewrite Forall_forall in Hall. apply Hall. apply nth_In.
      unfold len in Hi. lia. }
    rewrite (nan_never_exceeds _ _ Hn) in Hx. discriminate.
Qed.

(** X10.  After the loop nothing is caught either: when the loop has left
    with a final series, the first of the calls [plot_acf], [plot_pacf],
    [savefig], [pacf], [acf], in this order, that raises makes
    [get_arima_params] raise that exception, with nothing logged and no
    proposal returned. *)
Theorem correlogram_failure_propagates
    (fuel : nat) (series : Series) (log : Log)
    (temp : Series) (d : Z) (e : exn) :
  degenerate series = false ->
  (3 <= fuel)%nat ->
  loop_run (dropna series) 0 (Returns (temp, d)) ->
  plot_acf temp 20 = Err e
  \/ (plot_acf temp 20 = Ok tt /\ plot_pacf temp 20 = Err e)
  \/ (plot_acf temp 20 = Ok tt /\ plot_pacf temp 20 = Ok tt /\
      savefig (correlogram temp) "png" = Err e)
  \/ (plot_acf temp 20 = Ok tt /\ plot_pacf temp 20 = Ok tt /\
      (exists png, savefig (correlogram temp) "png" = Ok png) /\
      pacf temp 20 = Err e)
  \/ (plot_acf temp 20 = Ok tt /\ plot_pacf temp 20 = Ok tt /\
      (exists png, savefig (correlogram temp) "png" = Ok png) /\
      (exists pv, pacf temp 20 = Ok pv) /\
      acf temp 20 = Err e) ->
  get_arima_params fuel series log = (Raises e, log).
Proof.
  intros H Hf Hrun Hfail.
  pose proof (differencing_loop_follows fuel _ log _ Hf Hrun) as Hl.
  unfold get_arima_params. take_guard H. unfold bind, copy. rewrite Hl.
  unfold call.
  destruct Hfail as [E1 | [(E1 & E2) | [(E1 & E2 & E3) |
    [(E1 & E2 & (png & E3) & E4) | (E1 & E2 & (png & E3) & (pv & E4) & E5)]]]].
  - rewrite E1. reflexivity.
  - rewrite E1, E2. reflexivity.
  - rewrite E1, E2, E3. reflexivity.
  - rewrite E1, E2, E3, E4. reflexivity.
  - rewrite E1, E2, E3, E4, E5. reflexivity.
Qed.

(** X11.  How a call of [forecast_stock] can end.  A forecast it returns
    is the 7-step forecast of the model built and fitted on the cleaned
    series with exactly the orders given, and one INFO record is logged.
    An exception it raises is either the degenerate-input failure, with
    nothing logged, or a failure of the model on a non-degenerate series,
    with one ERROR record carrying its message. *)
Theorem forecast_stock_outcomes
    (series : Series) (p d q : Z) (log : Log) :
  (forall fc log',
     forecast_stock series p d q log = (Returns fc, log') ->
     degenerate series = false /\
     (exists m r, ARIMA (dropna series) (p, d, q) = Ok m /\
                  fit m = Ok r /\ forecast r 7 = Ok fc) /\
     log' = (log ++ [mkLog Forecast.logger INFO
                       ("Forecast generated for " ++ str_int (len fc)
                          ++ " days")])%list)
  /\
  (forall e log',
     forecast_stock series p d q log = (Raises e, log') ->
     (degenerate series = true /\ log' = log /\
      e = Exc "Exception" "Cannot forecast: Constant or insufficient data")
     \/
     (degenerate series = false /\
      log' = (log ++ [mkLog Forecast.logger ERROR
                        ("ARIMA forecast failed: " ++ str_exn e)])%list))
  /\ fst (forecast_stock series p d q log) <> OutOfFuel.
Proof.
  unfold forecast_stock, degenerate. cbv zeta.
  destruct ((len (dropna series) <? 2) || (std (dropna series) =? 0)%float).
  - run. split; [| split].
    + intros fc log' E. discriminate.
    + intros e log' E. injection E as <- <-. left. repeat split.
    + discriminate.
  - run.
    destruct (ARIMA (dropna series) (p, d, q)) as [m | e0] eqn:Em; simpl;
      [destruct (fit m) as [r | e0] eqn:Er; simpl;
       [destruct (forecast r 7) as [fc0 | e0] eqn:Ef; simpl |] |].
    + split; [| split].
      * intros fc log' E. injection E as <- <-.
        split; [reflexivity |]. split; [| reflexivity].
        exists m, r. repeat split; trivial.
      * intros e log' E. discriminate.
      * discriminate.
    + split; [| split].
      * intros fc log' E. discriminate.
      * intros e log' E. injection E as <- <-. right. now split.
      * discriminate.
    + split; [| split].
      * intros fc log' E. discriminate.
      * intros e log' E. injection E as <- <-. right. now split.
      * discriminate.
    + split; [| split].
      * intros fc log' E. discriminate.
      * intros e log' E. injection E as <- <-. right. now split.
      * discriminate.
Qed.

End ProposalMore.

(* ===================================================================== *)
(** ** [load_data] *)
(* ===================================================================== *)

Section Labels.

Lemma to_int_not_nil (z : Z) :
  Z.to_int z <> Decimal.Pos Decimal.Nil /\
  Z.to_int z <> Decimal.Neg Decimal.Nil.
Proof.
  split; intros E; pose proof (f_equal Z.of_int E) as Ez;
    rewrite DecimalZ.of_to in Ez; simpl in Ez; subst z; discriminate.
Qed.

Lemma str_int_inj (a b : Z) : str_int a = str_int b -> a = b.
Proof.
  unfold str_int. intros E.
  apply (f_equal NilZero.int_of_string) in E.
  destruct (to_int_not_nil a) as (Ha1 & Ha2).
  destruct (to_int_not_nil b) as (Hb1 & Hb2).
  rewrite !NilZero.isi in E by assumption.
  injection E as E. now apply DecimalZ.to_int_inj.
Qed.

Lemma day_label_inj (i j : Z) : day_label i = day_label j -> i = j.
Proof.
  unfold day_label.
  assert (H : forall a b,
            LStr ("Day -" ++ str_int a) = LStr ("Day -" ++ str_int b) ->
            a = b).
  { intros a b E. cbn [String.append] in E. injection E as E.
    now apply str_int_inj. }
  intros E. apply H in E. lia.
Qed.

Lemma range_NoDup (n : Z) : NoDup (range n).
Proof.
  unfold range. apply NoDup_map_NoDup_ForallPairs; [| apply seq_NoDup].
  intros a b _ _ E. lia.
Qed.

Lemma length_range (n : Z) : List.length (range n) = Z.to_nat n.
Proof. unfold range. now rewrite length_map, length_seq. Qed.

Lemma nth_range (n i : Z) (d : Z) :
  0 <= i < n -> nth (Z.to_nat i) (range n) d = i.
Proof.
  intros H. unfold range.
  rewrite (nth_indep _ d (Z.of_nat 0)) by (rewrite length_map, length_seq; lia).
  rewrite map_nth, seq_nth by lia. lia.
Qed.

Lemma label_eqb_eq (a b : label) : label_eqb a b = true <-> a = b.
Proof.
  destruct a as [s | m], b as [t | n]; simpl; split; intros H;
    try discriminate.
  - apply String.eqb_eq in H. now subst.
  - injection H as ->. apply String.eqb_refl.
  - apply Z.eqb_eq in H. now subst.
  - injection H as ->. apply Z.eqb_refl.
Qed.

End Labels.

Section LoadData.
Context {R : CsvReader}.

Lemma transposed_columns {B} (g : nat -> B) (idx : list label) :
  forall a : nat,
    map (fun k => (nth (k - a) idx (LInt 0), g k)) (seq a (List.length idx))
    = map (fun kn => (snd kn, g (fst kn)))
          (combine (seq a (List.length idx)) idx).
Proof.
  induction idx as [| x idx IH]; intros a; simpl; [reflexivity |].
  rewrite Nat.sub_diag. f_equal.
  rewrite <- IH. apply map_ext_in. intros k Hk. apply in_seq in Hk.
  replace (k - a)%nat with (S (k - S a)) by lia. reflexivity.
Qed.

Lemma find_column {B} (g : nat -> B) (idx : list label) :
  forall (a k : nat) (name : label),
    NoDup idx -> nth_error idx k = Some name ->
    find (fun c => label_eqb (fst c) name)
      (map (fun kn => (snd kn, g (fst kn)))
           (combine (seq a (List.length idx)) idx))
    = Some (name, g (a + k)%nat).
Proof.
  induction idx as [| x idx IH]; intros a k name Hnd Hk.
  - destruct k; discriminate.
  - inversion Hnd as [| ? ? Hx Hnd']; subst. simpl.
    destruct k as [| k]; simpl in Hk.
    + injection Hk as ->.
      assert (E : label_eqb name name = true) by now apply label_eqb_eq.
      rewrite E. now rewrite Nat.add_0_r.
    + destruct (label_eqb x name) eqn:E.
      * apply label_eqb_eq in E. subst x.
        apply nth_error_In in Hk. contradiction.
      * rewrite (IH (S a) k name Hnd' Hk). f_equal. f_equal. f_equal. lia.
Qed.

Lemma find_no_column {B} (g : nat -> B) (idx : list label) (name : label) :
  forall a : nat,
    ~ In name idx ->
    find (fun c => label_eqb (fst c) name)
      (map (fun kn => (snd kn, g (fst kn)))
           (combine (seq a (List.length idx)) idx))
    = None.
Proof.
  induction idx as [| x idx IH]; intros a Hn; simpl; [reflexivity |].
  destruct (label_eqb x name) eqn:E.
  - apply label_eqb_eq in E. subst x. exfalso. apply Hn. now left.
  - apply IH. intros Hin. apply Hn. now right.
Qed.

(** What [load_data] returns, from what the reader returned. *)
Lemma load_data_run (file_path : string) (stdout : list DataFrame)
    (csv : DataFrame) :
  read_csv file_path 0 = Ok csv ->
  let df := mkFrame (map day_label (range (len (df_columns csv))))
              (map (fun k => (nth k (df_index csv) (LInt 0), row csv k))
                   (seq 0 (List.length (df_index csv)))) in
  load_data file_path stdout = (Returns df, (stdout ++ [head df 5])%list).
Proof.
  intros E. unfold load_data. rewrite E. cbv zeta.
  unfold set_index, transpose. cbn [df_index df_columns].
  unfold columns, len. rewrite !length_map, length_range, Nat2Z.id.
  rewrite Nat.eqb_refl. reflexivity.
Qed.

(** X12.  [load_data] raises exactly what the reader raises, having
    printed nothing; the index assignment itself never fails.  When the
    file is read, the frame returned has one column per row of the file,
    in order, named as that row and holding that row's values in the order
    of the file's columns; one row per column of the file, relabelled by
    position "Day -100", "Day -99", ... whatever the file's header says;
    every column has one value per row; and its first five rows are
    printed. *)
Theorem load_data_outcome (file_path : string) (stdout : list DataFrame) :
  (forall e, read_csv file_path 0 = Err e ->
     load_data file_path stdout = (Raises e, stdout))
  /\
  (forall csv, read_csv file_path 0 = Ok csv ->
     exists df,
       load_data file_path stdout = (Returns df, (stdout ++ [head df 5])%list)
       /\ df_index df = map day_label (range (len (df_columns csv)))
       /\ columns df = df_index csv
       /\ (forall k name,
             nth_error (df_index csv) k = Some name ->
             nth_error (df_columns df) k = Some (name, row csv k))
       /\ well_formed df).
Proof.
  split.
  - intros e E. unfold load_data. now rewrite E.
  - intros csv E. eexists. split; [apply (load_data_run _ _ _ E) |].
    cbn [df_index df_columns]. split; [reflexivity |]. split; [| split].
    + unfold columns. cbn [df_columns]. rewrite map_map. simpl.
      apply nth_ext with (d := LInt 0) (d' := LInt 0).
      * now rewrite length_map, length_seq.
      * intros n Hn. rewrite length_map, length_seq in Hn.
        rewrite (nth_indep _ (LInt 0) (nth 0 (df_index csv) (LInt 0)))
          by (rewrite length_map, length_seq; lia).
        rewrite (map_nth (fun k => nth k (df_index csv) (LInt 0))).
        now rewrite seq_nth.
    + intros k name Hk.
      assert (Hlt : (k < List.length (df_index csv))%nat)
        by (apply nth_error_Some; congruence).
      rewrite nth_error_map, nth_error_seq.
      apply Nat.ltb_lt in Hlt. rewrite Hlt. simpl.
      now rewrite (nth_error_nth _ _ (LInt 0) Hk).
    + unfold well_formed. cbn [df_index df_columns].
      apply Forall_forall. intros c Hc. apply in_map_iff in Hc.
      destruct Hc as (k & <- & _). unfold row. simpl.
      unfold len. rewrite !length_map, length_range. lia.
Qed.

Lemma repr_char_plain (c : ascii) :
  printable c && negb (Ascii.eqb c squote) && negb (Ascii.eqb c backslash)
    = true ->
  repr_char squote c = String c EmptyString.
Proof.
  destruct c as [[] [] [] [] [] [] [] []]; vm_compute; intros H;
    try discriminate; reflexivity.
Qed.

Lemma plain_no_apostrophe (s : string) :
  plain s = true -> contains squote s = false.
Proof.
  induction s as [| c s IH]; simpl; [reflexivity |].
  intros H. apply andb_true_iff in H. destruct H as (H & Hs).
  apply andb_true_iff in H. destruct H as (H & _).
  apply andb_true_iff in H. destruct H as (_ & H).
  apply negb_true_iff in H. rewrite H. simpl. now apply IH.
Qed.

Lemma repr_body_plain (s : string) :
  plain s = true -> repr_body squote s = s.
Proof.
  induction s as [| c s IH]; simpl; [reflexivity |].
  intros H. apply andb_true_iff in H. destruct H as (H & Hs).
  rewrite (repr_char_plain c H), (IH Hs). reflexivity.
Qed.

(** For a plain name, [repr] only adds the apostrophes. *)
Lemma repr_plain (s : string) :
  plain s = true -> repr_str s = "'" ++ s ++ "'".
Proof.
  intros H. unfold repr_str.
  rewrite (plain_no_apostrophe s H). simpl.
  now rewrite (repr_body_plain s H).
Qed.

(** X13.  After [load_data], with stock names that are distinct in the
    file, [data[stock]] for the stock of row k is the Series of that row's
    values under the labels "Day -100", "Day -99", ...; for a name that is
    no row of the file it raises [KeyError], whose text is Python's
    [repr] of the name: the name between apostrophes when it is plain. *)
Theorem load_data_series
    (file_path : string) (stdout stdout' : list DataFrame)
    (csv df : DataFrame) :
  read_csv file_path 0 = Ok csv ->
  NoDup (df_index csv) ->
  load_data file_path stdout = (Returns df, stdout') ->
  (forall k name,
     nth_error (df_index csv) k = Some name ->
     getitem_column df name =
       Ok (combine (map day_label (range (len (df_columns csv))))
                   (row csv k)))
  /\ (forall name,
        ~ In name (df_index csv) ->
        getitem_column df name = Err (Exc "KeyError" (repr_label name)))
  /\ (forall stock,
        ~ In (LStr stock) (df_index csv) -> plain stock = true ->
        getitem_column df (LStr stock) =
          Err (Exc "KeyError" ("'" ++ stock ++ "'"))).
Proof.
  intros E Hnd Hl. rewrite (load_data_run _ stdout _ E) in Hl.
  injection Hl as <- _. unfold getitem_column. cbn [df_index df_columns].
  pose proof (transposed_columns (row csv) (df_index csv) 0) as Ht.
  rewrite (map_ext_in _ (fun k => (nth k (df_index csv) (LInt 0), row csv k)))
    in Ht by (intros k _; now rewrite Nat.sub_0_r).
  rewrite Ht. split; [| split].
  - intros k name Hk. now rewrite (find_column _ _ 0 k name Hnd Hk).
  - intros name Hn. now rewrite (find_no_column _ _ name 0 Hn).
  - intros stock Hn Hp. rewrite (find_no_column _ _ (LStr stock) 0 Hn).
    simpl. now rewrite (repr_plain stock Hp).
Qed.

(** X14.  The row labels of the frame [load_data] returns are pairwise
    distinct; the label at position i is "Day -" followed by 100 - i, so
    a file of 100 days is labelled from "Day -100" to "Day -1". *)
Theorem load_data_labels
    (file_path : string) (stdout stdout' : list DataFrame) (df : DataFrame) :
  load_data file_path stdout = (Returns df, stdout') ->
  NoDup (df_index df)
  /\ (forall i, 0 <= i < len (df_index df) ->
        nth (Z.to_nat i) (df_index df) (LInt 0)
        = LStr ("Day -" ++ str_int (100 - i)))
  /\ (len (df_index df) = 100 ->
        hd (LInt 0) (df_index df) = LStr "Day -100" /\
        last (df_index df) (LInt 0) = LStr "Day -1").
Proof.
  intros Hl.
  assert (Hi : df_index df = map day_label (range (len (df_index df)))).
  { unfold load_data in Hl.
    destruct (read_csv file_path 0) as [csv | e]; [| discriminate].
    cbv zeta in Hl. unfold set_index in Hl.
    destruct (Nat.eqb _ _); [| discriminate].
    injection Hl as <- _. cbn [df_index].
    f_equal. f_equal. unfold len.
    rewrite length_map, length_range. lia. }
  split; [| split].
  - rewrite Hi. apply NoDup_map_NoDup_ForallPairs; [| apply range_NoDup].
    intros a b _ _. apply day_label_inj.
  - intros i Hlt. rewrite Hi at 1.
    rewrite (nth_indep _ (LInt 0) (day_label 0))
      by (rewrite length_map, length_range; lia).
    rewrite map_nth, nth_range by lia. reflexivity.
  - intros H100. rewrite Hi, H100. split; vm_compute; reflexivity.
Qed.

End LoadData.

(* ===================================================================== *)
(** ** The line plots *)
(* ===================================================================== *)

Section LinePlots.
Context {P : Matplotlib}.

Lemma length_last_k {A} (k : Z) (xs : list A) :
  0 <= k -> len (last_k k xs) = Z.min k (len xs).
Proof.
  intros Hk. unfold last_k, len. rewrite length_skipn. lia.
Qed.

Lemma last_k_suffix {A} (k : Z) (xs : list A) :
  exists older, xs = (older ++ last_k k xs)%list.
Proof.
  unfold last_k. eexists. symmetry. apply firstn_skipn.
Qed.

Lemma forecast_labels_NoDup (n : Z) : NoDup (forecast_labels n).
Proof.
  unfold forecast_labels.
  apply NoDup_map_NoDup_ForallPairs; [| apply range_NoDup].
  intros a b _ _ E.
  assert (H : forall u v,
            LStr ("Day +" ++ str_int u) = LStr ("Day +" ++ str_int v) ->
            u = v).
  { intros u v Eu. cbn [String.append] in Eu. injection Eu as Eu.
    now apply str_int_inj. }
  apply H in E. lia.
Qed.

(** X15.  [plot_forecast] gives matplotlib, for any series and any
    forecast, two lines whose x and y have the same length: the last 30
    observations of the series (all of them when there are fewer) under
    their own labels, and the forecast under the distinct labels
    "Day +1", "Day +2", ...  So with a matplotlib that draws sequences of
    equal length, and a renderer that succeeds, it returns the PNG buffer
    and logs nothing. *)
Theorem plot_forecast_lines
    (series fc : Series) (stock_name : string) (png : list Byte.byte)
    (log : Log) :
  accepts_equal_lengths ->
  savefig_lines
    (mkLineFigure (10, 6) [historical_line series; forecast_line fc]
       ("7-Day Forecast for " ++ stock_name) "Day" "Price (INR)"
       true true 45 true) "png" = Ok png ->
  plot_forecast series fc stock_name log = (Returns (PyBytesIO png), log)
  /\ len (ln_x (historical_line series)) = Z.min 30 (len series)
  /\ len (ln_y (historical_line series)) = Z.min 30 (len series)
  /\ (exists older, series =
        (older ++ combine (ln_x (historical_line series))
                          (ln_y (historical_line series)))%list)
  /\ len (ln_x (forecast_line fc)) = len fc
  /\ ln_y (forecast_line fc) = values fc
  /\ NoDup (ln_x (forecast_line fc))
  /\ (forall i, 0 <= i < len fc ->
        nth (Z.to_nat i) (ln_x (forecast_line fc)) (LInt 0)
        = LStr ("Day +" ++ str_int (i + 1))).
Proof.
  intros Hacc Hs.
  assert (Hh : List.length (last_k 30 (index series))
               = List.length (last_k 30 (values series))).
  { unfold last_k, index, values, len. now rewrite !length_skipn, !length_map. }
  assert (Hf : List.length (forecast_labels (len fc))
               = List.length (values fc)).
  { unfold forecast_labels, values, len.
    rewrite !length_map, length_range. lia. }
  split.
  { unfold plot_forecast, bind, call.
    rewrite (Hacc _ _ Hh), (Hacc _ _ Hf), Hs. reflexivity. }
  cbn [historical_line forecast_line ln_x ln_y].
  split; [| split; [| split; [| split; [| split; [| split]]]]].
  - rewrite length_last_k by lia. unfold len, index. now rewrite length_map.
  - rewrite length_last_k by lia. unfold len, values. now rewrite length_map.
  - exists (firstn (Z.to_nat (Z.max (len series - 30) 0)) series).
    unfold last_k, index, values, len. rewrite !length_map.
    rewrite !skipn_map.
    rewrite <- (firstn_skipn (Z.to_nat (Z.max (Z.of_nat (List.length series) - 30) 0))
                  series) at 1.
    f_equal.
    generalize (skipn (Z.to_nat (Z.max (Z.of_nat (List.length series) - 30) 0))
                  series) as t.
    induction t as [| [l x] t IH]; simpl; [reflexivity | now rewrite <- IH].
  - unfold len in *. rewrite Hf. unfold values. now rewrite length_map.
  - reflexivity.
  - apply forecast_labels_NoDup.
  - intros i Hi. unfold forecast_labels.
    rewrite (nth_indep _ (LInt 0)
               ((fun j => LStr ("Day +" ++ str_int (j + 1))) 0))
      by (rewrite length_map, length_range; lia).
    rewrite (map_nth (fun j => LStr ("Day +" ++ str_int (j + 1)))).
    now rewrite nth_range by lia.
Qed.

Lemma values_combine (idx : list label) (ys : list float) :
  List.length ys = List.length idx -> values (combine idx ys) = ys.
Proof.
  unfold values. revert ys.
  induction idx as [| l idx IH]; intros [| y ys] H; simpl in *;
    try reflexivity; try discriminate.
  f_equal. apply IH. lia.
Qed.

(** A stock that is a column is found, with one value per row. *)
Lemma getitem_column_present (data : DataFrame) (name : label) :
  well_formed data -> In name (columns data) ->
  exists ys,
    getitem_column data name = Ok (combine (df_index data) ys) /\
    In (name, ys) (df_columns data) /\
    List.length ys = List.length (df_index data).
Proof.
  intros Hwf Hin. unfold getitem_column.
  destruct (find (fun c => label_eqb (fst c) name) (df_columns data))
    as [[n ys] |] eqn:E.
  - apply find_some in E. destruct E as (Hc & Hn). simpl in Hn.
    apply label_eqb_eq in Hn. subst n.
    exists ys. repeat split; trivial.
    unfold well_formed in Hwf. rewrite Forall_forall in Hwf.
    apply (Hwf _ Hc).
  - exfalso. unfold columns in Hin. apply in_map_iff in Hin.
    destruct Hin as (c & Hc & Hin).
    pose proof (find_none _ _ E c Hin) as Hf. simpl in Hf.
    rewrite Hc in Hf.
    assert (label_eqb name name = true) by now apply label_eqb_eq.
    congruence.
Qed.

Lemma getitem_column_absent (data : DataFrame) (name : label) :
  ~ In name (columns data) ->
  getitem_column data name = Err (Exc "KeyError" (repr_label name)).
Proof.
  intros Hn. unfold getitem_column.
  destruct (find (fun c => label_eqb (fst c) name) (df_columns data))
    as [[n ys] |] eqn:E; [| reflexivity].
  apply find_some in E. destruct E as (Hc & He). simpl in He.
  apply label_eqb_eq in He. subst n. exfalso. apply Hn.
  unfold columns. apply in_map_iff. now exists (name, ys).
Qed.

Lemma plot_each_present (data : DataFrame) (stocks : list string) :
  accepts_equal_lengths -> well_formed data ->
  Forall (fun stock => In (LStr stock) (columns data)) stocks ->
  forall (drawn : list Line) (log : Log),
  exists lines,
    plot_each data stocks drawn log = (Returns (drawn ++ lines)%list, log) /\
    map ln_label lines = stocks /\
    Forall (price_line data) lines.
Proof.
  intros Hacc Hwf. induction 1 as [| stock rest Hin _ IH]; intros drawn log.
  - exists []. simpl. run. rewrite app_nil_r. repeat split. constructor.
  - destruct (getitem_column_present data (LStr stock) Hwf Hin)
      as (ys & Eg & Hc & Hlen).
    simpl. unfold bind at 1. unfold call at 1. rewrite Eg. unfold ret at 1.
    unfold bind at 1. unfold call at 1.
    rewrite values_combine by exact Hlen.
    rewrite (Hacc (df_index data) ys) by (now rewrite Hlen).
    unfold ret at 1.
    destruct (IH (drawn ++ [mkLine (df_index data) ys stock None None])%list
                log) as (lines & Er & Hl & Hp).
    exists (mkLine (df_index data) ys stock None None :: lines).
    rewrite Er. rewrite <- app_assoc. simpl. repeat split.
    + now rewrite Hl.
    + constructor; [| exact Hp]. unfold price_line. simpl. repeat split; trivial.
Qed.

(** X16.  [plot_prices] on a frame of distinctly named columns that has
    every requested stock as a column draws one line per stock, in the order requested, labelled
    with the stock, its column against the row labels; it returns the PNG
    of that figure (with a matplotlib that draws sequences of equal length
    and a renderer that succeeds) and logs nothing. *)
Theorem plot_prices_draws_each_stock
    (data : DataFrame) (stocks : list string) (title : string) (log : Log) :
  accepts_equal_lengths ->
  well_formed data ->
  NoDup (columns data) ->
  Forall (fun stock => In (LStr stock) (columns data)) stocks ->
  (forall fig, exists png, savefig_lines fig "png" = Ok png) ->
  exists lines png,
    plot_prices data stocks title log = (Returns (PyBytesIO png), log) /\
    savefig_lines
      (mkLineFigure (10, 6) lines title "Day" "Price (INR)" true true 45 true)
      "png" = Ok png /\
    map ln_label lines = stocks /\
    Forall (price_line data) lines.
Proof.
  intros Hacc Hwf _ Hall Hsave.
  destruct (plot_each_present data stocks Hacc Hwf Hall [] log)
    as (lines & Er & Hl & Hp).
  simpl in Er.
  destruct (Hsave (mkLineFigure (10, 6) lines title "Day" "Price (INR)"
                     true true 45 true)) as (png & Es).
  exists lines, png. split; [| now repeat split].
  unfold plot_prices. unfold bind at 1. rewrite Er.
  unfold bind, call. rewrite Es. reflexivity.
Qed.

(** X17.  [plot_prices] on a frame of distinctly named columns that lacks
    one of the requested stocks raises [KeyError] for the first such
    stock, whatever comes after it in the list; its text is Python's
    [repr] of the stock name, the name between apostrophes when it is
    plain; nothing is rendered or logged. *)
Theorem plot_prices_missing_stock
    (data : DataFrame) (before after : list string) (missing : string)
    (title : string) (log : Log) :
  accepts_equal_lengths ->
  well_formed data ->
  NoDup (columns data) ->
  Forall (fun stock => In (LStr stock) (columns data)) before ->
  ~ In (LStr missing) (columns data) ->
  plot_prices data (before ++ missing :: after)%list title log =
    (Raises (Exc "KeyError" (repr_str missing)), log)
  /\ (plain missing = true -> repr_str missing = "'" ++ missing ++ "'").
Proof.
  intros Hacc Hwf _ Hall Hmiss. split; [| apply repr_plain].
  assert (Hloop : forall drawn,
            plot_each data (before ++ missing :: after)%list drawn log =
              (Raises (Exc "KeyError" (repr_str missing)), log)).
  { induction Hall as [| stock rest Hin _ IH]; intros drawn.
    - simpl. unfold bind at 1. unfold call at 1.
      rewrite (getitem_column_absent data (LStr missing) Hmiss).
      reflexivity.
    - destruct (getitem_column_present data (LStr stock) Hwf Hin)
        as (ys & Eg & Hc & Hlen).
      simpl. unfold bind at 1. unfold call at 1. rewrite Eg. unfold ret at 1.
      unfold bind at 1. unfold call at 1.
      rewrite values_combine by exact Hlen.
      rewrite (Hacc (df_index data) ys) by (now rewrite Hlen).
      unfold ret at 1. apply IH. }
  unfold plot_prices. unfold bind at 1. now rewrite Hloop.
Qed.

End LinePlots.

(* ===================================================================== *)
(** ** The further properties on concrete data *)
(* ===================================================================== *)

Example load_data_two_stocks :
  load_data (R := DoubleIO.reader) default_path [] =
    (Returns DoubleIO.loaded, [DoubleIO.loaded]).
Proof. vm_compute. reflexivity. Qed.

Example load_data_no_file :
  load_data (R := DoubleIO.reader) "prices.csv" [] =
    (Raises (Exc "FileNotFoundError" "No such file or directory"), []).
Proof. vm_compute. reflexivity. Qed.

Example day_labels_past_one_hundred :
  map day_label [99; 100; 101] =
    [LStr "Day -1"; LStr "Day -0"; LStr "Day --1"].
Proof. vm_compute. reflexivity. Qed.

Example last_k_of_short_list : last_k 30 [1; 2; 3] = [1; 2; 3].
Proof. reflexivity. Qed.

Example last_k_of_long_list :
  last_k 30 (range 100) = map (fun i => 70 + i) (range 30).
Proof. vm_compute. reflexivity. Qed.

Lemma canvas_accepts :
  accepts_equal_lengths (P := DoubleIO.canvas).
Proof.
  intros x y H. simpl. unfold DoubleIO.ax_plot.
  rewrite H, Nat.eqb_refl. reflexivity.
Defined.

Lemma canvas_renders (fig : LineFigure) :
  exists png, savefig_lines (Matplotlib := DoubleIO.canvas) fig "png" = Ok png.
Proof. eexists. reflexivity. Defined.

Lemma final_series_is_clean_trending :
  exists temp,
    temp = differenced 1 (dropna Double.trending_prices) /\
    loop_run (L := Double.lab) (dropna Double.trending_prices) 0
      (Returns (temp, 1)) /\
    no_missing temp /\
    len temp + 1 <= len (dropna Double.trending_prices) /\
    subsequence (index temp)
      (skipn 1 (index (dropna Double.trending_prices))).
Proof.
  destruct (final_series_is_clean (L := Double.lab) 3 Double.trending_prices
              [] _ 2 1 0 _ trending_not_degenerate (le_n 3)
              trending_proposal)
    as (temp & _ & _ & Hrun & Ht & _ & _ & Hn & Hlen & Hs).
  exists temp. repeat split; assumption.
Defined.

Lemma proposal_fits_widgets_trending : within_widget_ranges 2 1 0.
Proof.
  exact (proposal_fits_widgets (L := Double.lab) 3 Double.trending_prices
           [] _ 2 1 0 _ (le_n 3) trending_proposal).
Defined.

Lemma plot_absent_iff_degenerate_constant :
  degenerate (L := Double.lab) Double.constant_prices = true /\
  (PyNone = PyNone <-> degenerate (L := Double.lab) Double.constant_prices = true).
Proof.
  assert (E : get_arima_params (L := Double.lab) 3 Double.constant_prices []
              = (Returns (1, 0, 1, PyNone),
                 [mkLog Forecast.logger WARNING
                    "Cannot determine ARIMA parameters: Constant or insufficient data"]))
    by (vm_compute; reflexivity).
  split; [vm_compute; reflexivity |].
  exact (proj1 (plot_absent_iff_degenerate (L := Double.lab) 3
                  Double.constant_prices [] _ 1 0 1 PyNone E)).
Defined.

Lemma stationary_is_not_differenced_steady :
  (0 : Z) = 0 /\ degenerate (L := Double.lab) Double.steady_prices = false.
Proof.
  assert (Ea : adf_test (L := Double.lab) Double.steady_prices "INFY" []
               = (Returns
                    [ ("Stock", PyStr "INFY");
                      ("ADF Statistic", PyFloat (-4.2)%float);
                      ("p-value", PyFloat 0.01%float);
                      ("Critical Values",
                        critvalues_obj Double.critical_values);
                      ("Stationary", PyStr "Stationary") ],
                  [mkLog Stationarity.logger INFO
                     "ADF test completed for INFY with p-value ?"]))
    by (vm_compute; reflexivity).
  eapply (stationary_is_not_differenced (L := Double.lab) 3
            Double.steady_prices "INFY" [] _ [] _ _ 2 0 0 _
            (le_n 3) Ea).
  - reflexivity.
  - exact steady_proposal.
Defined.

Lemma zero_order_iff_lag_one_steady :
  exists temp av x rest,
    temp = differenced 0 (dropna Double.steady_prices) /\
    acf (Libraries := Double.lab) temp 20 = Ok av /\
    skipn 1 av = x :: rest /\
    (0.2 <? abs x)%float = true.
Proof.
  destruct (zero_order_iff_lag_one (L := Double.lab) 3
              Double.steady_prices [] _ 2 0 0 _
              steady_not_degenerate (le_n 3) steady_proposal)
    as (temp & pv & av & _ & Ht & _ & Eav & _ & Hq).
  destruct (proj1 Hq eq_refl) as (x & rest & Hx & Hgt).
  exists temp, av, x, rest. repeat split; assumption.
Defined.

Lemma missing_correlations_are_skipped_all_missing :
  Z.min (first_lag [nan; nan; nan]%float) 10 = 1.
Proof.
  apply (proj2 (missing_correlations_are_skipped [nan; nan; nan]%float)).
  repeat constructor.
Defined.

Lemma correlogram_failure_propagates_thirty :
  degenerate (L := Double.lab) Double.thirty_prices = false
  /\ get_arima_params (L := Double.lab) 3 Double.thirty_prices [] =
     (Raises (Exc "ValueError"
                "Can only compute partial correlations for lags up to 50% of the sample size."),
      []).
Proof.
  assert (H : degenerate (L := Double.lab) Double.thirty_prices = false)
    by (vm_compute; reflexivity).
  split; [exact H |].
  apply (correlogram_failure_propagates (L := Double.lab) 3
           Double.thirty_prices [] (dropna Double.thirty_prices) 0
           _ H (le_n 3)).
  - apply (run_leave (L := Double.lab) _ 0
             (mkADF (-4.2)%float 0.01%float 0 29 Double.critical_values
                0%float));
      vm_compute; reflexivity.
  - right. left. split; vm_compute; reflexivity.
Defined.

Lemma forecast_stock_outcomes_rising :
  exists m r,
    ARIMA (Libraries := Double.lab) (dropna Double.rising_prices) (1, 1, 1)
      = Ok m /\
    fit m = Ok r /\
    fst (forecast_stock (L := Double.lab) Double.rising_prices 1 1 1 []) =
      match forecast r 7 with Ok fc => Returns fc | Err e => Raises e end.
Proof.
  destruct (forecast_stock (L := Double.lab) Double.rising_prices 1 1 1 [])
    as [[fc | e |] log'] eqn:E; try (vm_compute in E; discriminate).
  destruct (proj1 (forecast_stock_outcomes (L := Double.lab)
                     Double.rising_prices 1 1 1 []) fc log' E)
    as (_ & (m & r & Em & Er & Ef) & _).
  exists m, r. split; [exact Em |]. split; [exact Er |].
  rewrite Ef. reflexivity.
Defined.

Lemma load_data_outcome_two_stocks :
  exists df,
    load_data (R := DoubleIO.reader) default_path [] =
      (Returns df, [head df 5])
    /\ columns df = [LStr "TCS"; LStr "INFY"]
    /\ well_formed df.
Proof.
  destruct (proj2 (load_data_outcome (R := DoubleIO.reader) default_path [])
              DoubleIO.two_stocks eq_refl)
    as (df & Hl & _ & Hc & _ & Hwf).
  exists df. repeat split; assumption.
Defined.

Lemma load_data_series_two_stocks :
  getitem_column DoubleIO.loaded (LStr "INFY") =
    Ok [ (LStr "Day -100", 50%float); (LStr "Day -99", nan);
         (LStr "Day -98", 52%float) ]
  /\ getitem_column DoubleIO.loaded (LStr "Dr. Reddy's") =
       Err (Exc "KeyError"
              (String dquote ("Dr. Reddy's" ++ String dquote EmptyString)))
  /\ getitem_column DoubleIO.loaded (LStr "WIPRO") =
       Err (Exc "KeyError" "'WIPRO'").
Proof.
  assert (Hnd : NoDup (df_index DoubleIO.two_stocks)).
  { simpl. repeat constructor; simpl; intuition discriminate. }
  destruct (load_data_series (R := DoubleIO.reader) default_path [] _
              DoubleIO.two_stocks DoubleIO.loaded eq_refl Hnd
              load_data_two_stocks) as (Hin & Hout & Hplain).
  split; [| split].
  - exact (Hin 1%nat (LStr "INFY") eq_refl).
  - apply (Hout (LStr "Dr. Reddy's")). simpl. intuition discriminate.
  - apply (Hplain "WIPRO"); [simpl; intuition discriminate | reflexivity].
Defined.

Lemma load_data_labels_two_stocks :
  NoDup (df_index DoubleIO.loaded).
Proof.
  exact (proj1 (load_data_labels (R := DoubleIO.reader) default_path [] _
                  DoubleIO.loaded load_data_two_stocks)).
Defined.

Lemma plot_forecast_lines_rising :
  plot_forecast (P := DoubleIO.canvas) Double.rising_prices
    [ (LInt 10, 145%float); (LInt 11, 146%float) ] "TCS" [] =
    (Returns (PyBytesIO [Byte.x89; Byte.x50; Byte.x4e; Byte.x47;
                         Byte.x01; Byte.x01]), []).
Proof.
  exact (proj1 (plot_forecast_lines (P := DoubleIO.canvas)
                  Double.rising_prices
                  [ (LInt 10, 145%float); (LInt 11, 146%float) ] "TCS"
                  _ [] canvas_accepts eq_refl)).
Defined.

Lemma loaded_well_formed : well_formed DoubleIO.loaded.
Proof. repeat constructor. Defined.

Lemma loaded_distinct_columns : NoDup (columns DoubleIO.loaded).
Proof.
  simpl. repeat constructor; simpl; intuition discriminate.
Defined.

Lemma plot_prices_draws_each_stock_two :
  exists lines png,
    plot_prices (P := DoubleIO.canvas) DoubleIO.loaded ["INFY"; "TCS"]
      "Stock Price Comparison" [] = (Returns (PyBytesIO png), [])
    /\ map ln_label lines = ["INFY"; "TCS"].
Proof.
  destruct (plot_prices_draws_each_stock (P := DoubleIO.canvas)
              DoubleIO.loaded ["INFY"; "TCS"] "Stock Price Comparison" []
              canvas_accepts loaded_well_formed loaded_distinct_columns)
    as (lines & png & Hr & _ & Hl & _).
  - constructor; [simpl; auto | constructor; [simpl; auto | constructor]].
  - exact canvas_renders.
  - exists lines, png. now split.
Defined.

Lemma plot_prices_missing_stock_reddy :
  plot_prices (P := DoubleIO.canvas) DoubleIO.loaded
    ["TCS"; "Dr. Reddy's"; "INFY"] "Stock Price Comparison" [] =
    (Raises (Exc "KeyError"
               (String dquote ("Dr. Reddy's" ++ String dquote EmptyString))),
     []).
Proof.
  apply (proj1 (plot_prices_missing_stock (P := DoubleIO.canvas)
                  DoubleIO.loaded ["TCS"] ["INFY"] "Dr. Reddy's"
                  "Stock Price Comparison" []
                  canvas_accepts loaded_well_formed loaded_distinct_columns
                  (Forall_cons "TCS" (or_introl eq_refl) (Forall_nil _))
                  (fun H => match H with
                            | or_introl E => ltac:(discriminate E)
                            | or_intror (or_introl E) => ltac:(discriminate E)
                            | or_intror (or_intror F) => match F with end
                            end))).
Defined.
